(** * The Validation Authority of boulder: [va/validation-authority.go]

    A shallow embedding of the three challenge validators
    ([validateSimpleHTTP], [validateDvsni], [validateDNS]), the
    connection-error classifier [parseHTTPConnError], the dispatcher
    ([validate], [UpdateValidations]) and the CAA checker ([getCAASet],
    [CheckCAARecords]), followed by the properties of the specification
    that concern them.

    Go strings are byte strings and are modelled by [string]; [[]byte] is
    [list byte]; [int] indices and status codes are [Z]; a Go map with
    string keys is a [gmap string _]; a nilable pointer is an [option].
    Everything the package reaches through an import (the resolver, the
    HTTP and TLS clients, JOSE, JSON, the clock) is a field of [World];
    every call on the logger, the resolver, the network and the
    Registration Authority is recorded, in program order, in a trace of
    [Event]s.  A Go run-time panic is the outcome [Panicked]. *)

From Stdlib Require Import ZArith String Ascii DecimalString.
From Stdlib.Strings Require Import Byte.
From stdpp Require Import base option list gmap strings.

Local Open Scope Z_scope.
Local Open Scope string_scope.

(** ** Pieces of the Go standard library used by the package *)

Module strings.

(** [strings.Join(a, sep)] *)
Fixpoint Join (a : list string) (sep : string) : string :=
  match a with
  | [] => ""
  | [x] => x
  | x :: rest => x +:+ sep +:+ Join rest sep
  end.

(** does the byte [c] occur in [cutset] *)
Fixpoint IndexByte (cutset : string) (c : ascii) : bool :=
  match cutset with
  | EmptyString => false
  | String d rest => if decide (c = d) then true else IndexByte rest c
  end.

(** [strings.TrimRight(s, cutset)]: all trailing bytes that belong to
    [cutset] are removed (the cutsets of this package are ASCII). *)
Fixpoint TrimRight (s cutset : string) : string :=
  match s with
  | EmptyString => EmptyString
  | String c rest =>
      match TrimRight rest cutset with
      | EmptyString => if IndexByte cutset c then EmptyString else String c EmptyString
      | kept => String c kept
      end
  end.

(** [strings.Split(s, sep)] for a separator of one byte, which is what
    every call site passes.  [Split("", ".")] is [[""]]. *)
Fixpoint Split (s : string) (sep : ascii) : list string :=
  match s with
  | EmptyString => [EmptyString]
  | String c rest =>
      if decide (c = sep) then EmptyString :: Split rest sep
      else match Split rest sep with
           | field :: fields => String c field :: fields
           | [] => [String c EmptyString]
           end
  end.

(** the text before and after the first [sep] of [s], if there is one *)
Fixpoint Cut (s : string) (sep : ascii) : option (string * string) :=
  match s with
  | EmptyString => None
  | String c rest =>
      if decide (c = sep) then Some (EmptyString, rest)
      else match Cut rest sep with
           | Some (before, after) => Some (String c before, after)
           | None => None
           end
  end.

(** [strings.SplitN(s, sep, n)] for [n >= 0] and a one-byte separator *)
Fixpoint SplitN (s : string) (sep : ascii) (n : nat) : list string :=
  match n with
  | O => []
  | S O => [s]
  | S n' =>
      match Cut s sep with
      | Some (before, after) => before :: SplitN after sep n'
      | None => [s]
      end
  end.

End strings.

Module subtle.

(** [subtle.ConstantTimeByteEq(x, y)] *)
Definition ConstantTimeByteEq (x y : N) : Z :=
  if decide (N.lxor x y = 0%N) then 1 else 0.

(** the accumulator [v |= x[i] ^ y[i]] of [ConstantTimeCompare] *)
Fixpoint xor_fold (x y : list byte) (v : N) : N :=
  match x, y with
  | a :: x', b :: y' => xor_fold x' y' (N.lor v (N.lxor (Byte.to_N a) (Byte.to_N b)))
  | _, _ => v
  end.

(** [subtle.ConstantTimeCompare(x, y)]: 1 when the two slices have the
    same length and contents, 0 otherwise. *)
Definition ConstantTimeCompare (x y : list byte) : Z :=
  if decide (length x = length y)
  then ConstantTimeByteEq (xor_fold x y 0%N) 0%N
  else 0.

End subtle.

(** [[]byte(s)] *)
Definition bytes_of (s : string) : list byte := list_byte_of_string s.

Module fmt.

Definition hex_digit (n : N) : ascii :=
  match n with
  | 0 => "0" | 1 => "1" | 2 => "2" | 3 => "3" | 4 => "4" | 5 => "5"
  | 6 => "6" | 7 => "7" | 8 => "8" | 9 => "9" | 10 => "a" | 11 => "b"
  | 12 => "c" | 13 => "d" | 14 => "e" | _ => "f"
  end%N%char.

(** [%x] of a byte slice or array: two lower-case digits per byte *)
Fixpoint hex (b : list byte) : string :=
  match b with
  | [] => ""
  | c :: rest =>
      String (hex_digit (Byte.to_N c / 16)) (String (hex_digit (Byte.to_N c mod 16)) (hex rest))
  end.

Fixpoint zeros (n : nat) : string :=
  match n with O => "" | S n' => String "0" (zeros n') end.

(** [%064x]: [%x] padded on the left with zeros to 64 characters *)
Definition hex064 (b : list byte) : string :=
  let h := hex b in zeros (64 - String.length h) +:+ h.

(** [%d] *)
Definition decimal (z : Z) : string := NilZero.string_of_int (Z.to_int z).

End fmt.

(** ** The data model of package [core] that the validators touch *)

(** Modelled from the spec: the constants of [core.ProblemType], a string
    type whose declaration is in package [core]; the names are those of
    the closed set of the specification. *)
Definition ProblemType := string.
Definition MalformedProblem : ProblemType := "malformed".
Definition UnauthorizedProblem : ProblemType := "unauthorized".
Definition ServerInternalProblem : ProblemType := "serverInternal".
Definition ConnectionProblem : ProblemType := "connection".
Definition UnknownHostProblem : ProblemType := "unknownHost".
Definition TLSProblem : ProblemType := "tls".
Definition DNSSECProblem : ProblemType := "dnssec".

(** the closed set of problem types *)
Definition problem_types : list ProblemType :=
  [MalformedProblem; UnauthorizedProblem; ServerInternalProblem;
   ConnectionProblem; UnknownHostProblem; TLSProblem; DNSSECProblem].

(** Modelled from the spec: the constants of [core.AcmeStatus],
    [core.IdentifierType] and the challenge types, declared in package
    [core]. *)
Definition AcmeStatus := string.
Definition StatusPending : AcmeStatus := "pending".
Definition StatusValid : AcmeStatus := "valid".
Definition StatusInvalid : AcmeStatus := "invalid".

Definition IdentifierDNS : string := "dns".

Definition ChallengeTypeSimpleHTTP : string := "simpleHttp".
Definition ChallengeTypeDVSNI : string := "dvsni".
Definition ChallengeTypeDNS : string := "dns".

(** [core.ProblemDetails] *)
Record ProblemDetails := {
  pd_Type : ProblemType;
  pd_Detail : string;
}.

(** [core.AcmeIdentifier] *)
Record AcmeIdentifier := {
  id_Type : string;
  id_Value : string;
}.

(** [core.Challenge], with the fields this file reads or writes.  [Error]
    and [TLS] are pointers in Go. *)
Record Challenge := {
  Type_ : string;
  Status : AcmeStatus;
  Error : option ProblemDetails;
  Token : string;
  Path : string;
  TLS : option bool;
  Nonce : string;
  R : string;
  S : string;
}.

(** the zero value [core.Challenge{}] *)
Definition zero_Challenge : Challenge :=
  {| Type_ := ""; Status := ""; Error := None; Token := ""; Path := "";
     TLS := None; Nonce := ""; R := ""; S := "" |}.

(** [challenge.Status = s] and [challenge.Error = e] *)
Definition set_Status (s : AcmeStatus) (c : Challenge) : Challenge :=
  {| Type_ := Type_ c; Status := s; Error := Error c; Token := Token c;
     Path := Path c; TLS := TLS c; Nonce := Nonce c; R := R c; S := S c |}.

Definition set_Error (e : option ProblemDetails) (c : Challenge) : Challenge :=
  {| Type_ := Type_ c; Status := Status c; Error := e; Token := Token c;
     Path := Path c; TLS := TLS c; Nonce := Nonce c; R := R c; S := S c |}.

(** [core.Authorization] *)
Record Authorization := {
  ID : string;
  RegistrationID : Z;
  Identifier : AcmeIdentifier;
  Challenges : list Challenge;
}.

Definition set_Challenges (cs : list Challenge) (a : Authorization) : Authorization :=
  {| ID := ID a; RegistrationID := RegistrationID a;
     Identifier := Identifier a; Challenges := cs |}.

(** [jose.JsonWebKey] *)
Record JsonWebKey := {
  KeyID : string;
  Algorithm : string;
  Key : list byte;
}.

(** [jose.JsonWebSignature]: one header key per signature; the rest of the
    object is opaque to this package and stands in [jws_raw]. *)
Record JsonWebSignature := {
  Signatures : list (option JsonWebKey);
  jws_raw : string;
}.

(** a decoded JSON value, as [json.Unmarshal] stores it in an
    [interface{}] *)
#[local] Unset Elimination Schemes.
Inductive JSON :=
| JNull
| JBool (b : bool)
| JNumber (digits : string)
| JString (s : string)
| JArray (items : list JSON)
| JObject (fields : list (string * JSON)).
#[local] Set Elimination Schemes.

(** [dns.CAA] *)
Record CAA := {
  Flag : Z;
  Tag : string;
  Value : string;
}.

(** Go [error] values.  The errors of the libraries carry the text their
    [Error()] method returns. *)
Inductive error :=
| url_Error (msg : string) (Err : error)
| net_OpError (msg : string) (Err : error)
| net_DNSError (msg : string) (IsTimeout IsTemporary : bool)
| tls_alert (msg : string)
| DNSSECError (msg : string)
| ProblemError (pd : ProblemDetails)
| errorString (msg : string).

(** [x509.Certificate] and [tls.Conn], as far as they are inspected *)
Record Certificate := { DNSNames : list string }.
Record Conn := { PeerCertificates : list Certificate }.

(** [http.Response]; [Body] is what [ioutil.ReadAll] makes of the body *)
Record Response := {
  StatusCode : Z;
  Body : string + error;
}.

(** [verificationRequestEvent] *)
Record verificationRequestEvent := {
  ev_ID : string;
  ev_Requester : Z;
  ev_Challenge : Challenge;
  ev_RequestTime : Z;
  ev_ResponseTime : Z;
  ev_Error : string;
}.

(** [core.DNSResolver], by the answers it gives.  The addresses and
    round-trip times are dropped by every caller. *)
Record DNSResolver := {
  LookupHost : string -> option error;
  LookupTXT : string -> list string * option error;
  LookupCAA : string -> bool -> list CAA * option error;
}.

(** [ValidationAuthorityImpl].  The logger and the Registration Authority
    are seen through the trace. *)
Record ValidationAuthorityImpl := {
  va_DNSResolver : DNSResolver;
  IssuerDomain : string;
  TestMode : bool;
}.

(** What the imported packages answer. *)
Record World := {
  time_Now : Z;
  strings_ToLower : string -> string;
  strings_ToUpper : string -> string;
  policy_PublicSuffixList : gset string;
  core_B64dec : string -> list byte + error;
  sha256_Sum256 : list byte -> list byte;
  core_KeyDigestEquals : option JsonWebKey -> JsonWebKey -> bool;
  Challenge_IsSane : Challenge -> bool -> bool;
  ProblemDetails_Error : ProblemDetails -> string;
  http_NewRequest : string -> string -> option error;
  http_Do : string -> string -> option Response * option error;
  jose_ParseSigned : string -> JsonWebSignature + error;
  jose_Verify : JsonWebSignature -> option JsonWebKey -> list byte + error;
  json_Unmarshal : list byte -> gmap string JSON + error;
  tls_DialWithDialer : string -> string -> Conn + error;
}.

(** arguments of a [fmt.Sprintf] whose rendering is left to [fmt] *)
Inductive Arg :=
| AString (s : string)
| AIdentifier (i : AcmeIdentifier)
| AChallenge (c : Challenge)
| AError (e : error)
| AAuthorization (a : Authorization).

Inductive Message :=
| Text (s : string)
| Sprintf (format : string) (args : list Arg).

(** what the validation authority does to the outside, in order *)
Inductive Event :=
| LogDebug (m : Message)
| LogNotice (m : Message)
| LogAudit (m : Message)
| LogAuditObject (msg : string) (obj : verificationRequestEvent)
| DNSLookupHost (name : string)
| DNSLookupTXT (name : string)
| DNSLookupCAA (name : string) (alias : bool)
| HTTPDo (url host : string)
| TLSDial (hostPort serverName : string)
| ConnClose
| OnValidationUpdate (authz : Authorization).

(** ** Computations: a trace and an outcome *)

Inductive Outcome (A : Type) :=
| Returned (a : A)
| Panicked (reason : string).
Arguments Returned {A} a.
Arguments Panicked {A} reason.

Definition M (A : Type) : Type := list Event * Outcome A.

#[global] Instance M_ret : MRet M := λ A a, ([], Returned a).

#[global] Instance M_bind : MBind M := λ A B f m,
  match m.2 with
  | Returned a => ((m.1 ++ (f a).1)%list, (f a).2)
  | Panicked reason => (m.1, Panicked reason)
  end.

Definition emit (e : Event) : M unit := ([e], Returned tt).
Definition panic {A} (reason : string) : M A := ([], Panicked reason).

Definition trace {A} (m : M A) : list Event := m.1.
Definition outcome {A} (m : M A) : Outcome A := m.2.

(** [err.Error()] on a non-nil error *)
Definition Error_of (W : World) (e : error) : string :=
  match e with
  | url_Error msg _ | net_OpError msg _ | net_DNSError msg _ _
  | tls_alert msg | DNSSECError msg | errorString msg => msg
  | ProblemError pd => ProblemDetails_Error W pd
  end.

(** [err.Error()] on an [error] that may be nil: a nil interface has no
    method to call. *)
Definition call_Error (W : World) (err : option error) : M string :=
  match err with
  | Some e => mret (Error_of W e)
  | None => panic "invalid memory address or nil pointer dereference"
  end.

Definition log_Debug (m : Message) : M unit := emit (LogDebug m).
Definition log_Notice (m : Message) : M unit := emit (LogNotice m).
Definition log_Audit (m : Message) : M unit := emit (LogAudit m).

(** ** The connection-error classifier *)

Definition parseHTTPConnError (err : error) : ProblemType :=
  let err := match err with url_Error _ inner => inner | _ => err end in
  match err with
  | net_OpError _ (net_DNSError _ IsTimeout IsTemporary) =>
      if negb IsTimeout && negb IsTemporary then UnknownHostProblem
      else ConnectionProblem
  | net_OpError _ (tls_alert _) => TLSProblem
  | _ => ConnectionProblem
  end.

(** The problem recorded after a failed lookup; the three validators make
    the same case distinction on [err.(core.DNSSECError)]. *)
Definition lookup_problem (W : World) (err : error) : ProblemDetails :=
  match err with
  | DNSSECError _ =>
      {| pd_Type := DNSSECProblem; pd_Detail := Error_of W err |}
  | _ =>
      {| pd_Type := ServerInternalProblem;
         pd_Detail := "Unable to communicate with DNS server" |}
  end.

(** ** SimpleHTTP *)

(** the four flags of the payload loop *)
Record Passed := {
  typePassed : bool;
  tokenPassed : bool;
  pathPassed : bool;
  tlsPassed : bool;
}.

Definition none_Passed : Passed :=
  {| typePassed := false; tokenPassed := false; pathPassed := false; tlsPassed := false |}.

(** One turn of [for key, value := range parsedResponse]: the flags after
    the turn, or [None] when the [default] case returns. *)
Definition payload_case (challenge : Challenge) (key : string) (value : JSON)
    (p : Passed) : option Passed :=
  if decide (key = "type") then
    Some {| typePassed := match value with
                          | JString castValue => bool_decide (castValue = ChallengeTypeSimpleHTTP)
                          | _ => false
                          end;
            tokenPassed := tokenPassed p; pathPassed := pathPassed p; tlsPassed := tlsPassed p |}
  else if decide (key = "token") then
    Some {| typePassed := typePassed p;
            tokenPassed := match value with
                           | JString castValue => bool_decide (castValue = Token challenge)
                           | _ => false
                           end;
            pathPassed := pathPassed p; tlsPassed := tlsPassed p |}
  else if decide (key = "path") then
    Some {| typePassed := typePassed p; tokenPassed := tokenPassed p;
            pathPassed := match value with
                          | JString castValue => bool_decide (castValue = Path challenge)
                          | _ => false
                          end;
            tlsPassed := tlsPassed p |}
  else if decide (key = "tls") then
    let tlsValue := match TLS challenge with Some b => b | None => false end in
    Some {| typePassed := typePassed p; tokenPassed := tokenPassed p; pathPassed := pathPassed p;
            tlsPassed := match value with
                         | JBool castValue => bool_decide (castValue = tlsValue)
                         | _ => false
                         end |}
  else None.

(** The loop over the entries of the map, in the order the run time
    yields them. *)
Fixpoint payload_loop (challenge : Challenge) (entries : list (string * JSON))
    (p : Passed) : option Passed :=
  match entries with
  | [] => Some p
  | (key, value) :: rest =>
      match payload_case challenge key value p with
      | Some p' => payload_loop challenge rest p'
      | None => None
      end
  end.

(** [%s] applied to a bool *)
Definition bad_verb_bool (b : bool) : string :=
  "%!s(bool=" +:+ (if b then "true" else "false") +:+ ")".

(** Lines 207-261: the payload of the verified JWS. *)
Definition checkPayload (W : World) (challenge : Challenge) (payload : list byte)
    : M (Challenge * option error) :=
  log_Debug (Sprintf "Validation response payload: %s" [AString (string_of_list_byte payload)]);;
  match json_Unmarshal W payload with
  | inr err =>
      let err := errorString ("Validation payload failed to parse as JSON: " +:+ Error_of W err) in
      log_Debug (Text (Error_of W err));;
      mret (set_Status StatusInvalid challenge, Some err)
  | inl parsedResponse =>
      if decide (size parsedResponse ≠ 4%nat) then
        let err := errorString "Validation payload did not have all fields" in
        log_Debug (Text (Error_of W err));;
        mret (set_Status StatusInvalid challenge, Some err)
      else
        match payload_loop challenge (map_to_list parsedResponse) none_Passed with
        | None =>
            let err := errorString "Validation payload did not have all fields" in
            mret (set_Status StatusInvalid challenge, Some err)
        | Some p =>
            if negb (typePassed p) || negb (tokenPassed p) || negb (pathPassed p) || negb (tlsPassed p)
            then
              let err := errorString
                ("Validation contents were not correct: type=" +:+ bad_verb_bool (typePassed p) +:+
                 " token=" +:+ bad_verb_bool (tokenPassed p) +:+
                 " path=" +:+ bad_verb_bool (pathPassed p) +:+
                 " tls=" +:+ bad_verb_bool (tlsPassed p)) in
              log_Debug (Text (Error_of W err));;
              mret (set_Status StatusInvalid challenge, Some err)
            else
              mret (set_Status StatusValid challenge, None)
        end
  end.

(** Lines 169-205: the body as a JWS.  When control reaches the key
    comparison the variable [err] holds nil, the value [jose.ParseSigned]
    left in it. *)
Definition checkJWS (W : World) (challenge : Challenge) (accountKey : JsonWebKey)
    (body : string) : M (Challenge * option error) :=
  match jose_ParseSigned W body with
  | inr err =>
      let err := errorString ("Validation response failed to parse as JWS: " +:+ Error_of W err) in
      log_Debug (Text (Error_of W err));;
      mret (set_Status StatusInvalid challenge, Some err)
  | inl parsedJws =>
      let err : option error := None in
      if decide (1 < length (Signatures parsedJws))%nat then
        let err := errorString "Too many signatures on validation JWS" in
        log_Debug (Text (Error_of W err));;
        mret (set_Status StatusInvalid challenge, Some err)
      else
        match Signatures parsedJws with
        | [] =>
            let err := errorString "Validation JWS not signed" in
            log_Debug (Text (Error_of W err));;
            mret (set_Status StatusInvalid challenge, Some err)
        | key :: _ =>
            if negb (core_KeyDigestEquals W key accountKey) then
              text ← call_Error W err;
              let err := errorString ("Response JWS signed with improper key: " +:+ text) in
              log_Debug (Text (Error_of W err));;
              mret (set_Status StatusInvalid challenge, Some err)
            else
              match jose_Verify W parsedJws key with
              | inr err =>
                  let err := errorString ("Validation response failed to verify: " +:+ Error_of W err) in
                  log_Debug (Text (Error_of W err));;
                  mret (set_Status StatusInvalid challenge, Some err)
              | inl payload => checkPayload W challenge payload
              end
        end
  end.

(** Lines 141-167: the request is sent; a transport error is recorded on
    the challenge and control goes on to [httpResponse.StatusCode]. *)
Definition fetch (W : World) (challenge : Challenge) (accountKey : JsonWebKey)
    (url hostName : string) : M (Challenge * option error) :=
  emit (HTTPDo url hostName);;
  let '(httpResponse, err) := http_Do W url hostName in
  challenge ←
    match err with
    | Some e =>
        let pd := {| pd_Type := parseHTTPConnError e;
                     pd_Detail := "Could not connect to " +:+ url |} in
        log_Debug (Text (strings.Join [Error_of W (ProblemError pd); Error_of W e] ": "));;
        mret (set_Error (Some pd) (set_Status StatusInvalid challenge))
    | None => mret challenge
    end;
  match httpResponse with
  | None => panic "invalid memory address or nil pointer dereference"
  | Some httpResponse =>
      let challenge :=
        if decide (StatusCode httpResponse ≠ 200) then
          set_Error (Some {| pd_Type := UnauthorizedProblem;
                             pd_Detail := "Invalid response from " +:+ url +:+ ": " +:+
                                          fmt.decimal (StatusCode httpResponse) |})
                    (set_Status StatusInvalid challenge)
        else challenge in
      match Body httpResponse with
      | inr readErr => mret (set_Status StatusInvalid challenge, Some readErr)
      | inl body => checkJWS W challenge accountKey body
      end
  end.

Definition validateSimpleHTTP (W : World) (va : ValidationAuthorityImpl)
    (identifier : AcmeIdentifier) (input : Challenge) (accountKey : JsonWebKey)
    : M (Challenge * option error) :=
  let challenge := input in
  if decide (String.length (Path challenge) = 0%nat) then
    let pd := {| pd_Type := MalformedProblem;
                 pd_Detail := "No path provided for SimpleHTTP challenge." |} in
    let challenge := set_Error (Some pd) (set_Status StatusInvalid challenge) in
    log_Debug (Sprintf "SimpleHTTP [%s] path empty: %s" [AIdentifier identifier; AChallenge challenge]);;
    mret (challenge, Some (ProblemError pd))
  else if decide (id_Type identifier ≠ IdentifierDNS) then
    let pd := {| pd_Type := MalformedProblem;
                 pd_Detail := "Identifier type for SimpleHTTP was not DNS" |} in
    let challenge := set_Error (Some pd) (set_Status StatusInvalid challenge) in
    log_Debug (Sprintf "SimpleHTTP [%s] Identifier failure" [AIdentifier identifier]);;
    mret (challenge, Some (ProblemError pd))
  else
    let hostName := id_Value identifier in
    emit (DNSLookupHost hostName);;
    match LookupHost (va_DNSResolver va) hostName with
    | Some err =>
        let pd := lookup_problem W err in
        let challenge := set_Status StatusInvalid (set_Error (Some pd) challenge) in
        log_Debug (Sprintf "SimpleHTTP [%s] DNS failure: %s" [AIdentifier identifier; AError err]);;
        mret (challenge, Some (ProblemError pd))
    | None =>
        let scheme := match TLS input with
                      | None => "https"
                      | Some b => if b then "https" else "http"
                      end in
        let hostName := if TestMode va then "localhost:5001" else hostName in
        let scheme := if TestMode va then "http" else scheme in
        let url := scheme +:+ "://" +:+ hostName +:+ "/.well-known/acme-challenge/" +:+ Path challenge in
        log_Audit (Sprintf "Attempting to validate Simple%s for %s"
                     [AString (strings_ToUpper W scheme); AString url]);;
        match http_NewRequest W "GET" url with
        | Some err =>
            let pd := {| pd_Type := MalformedProblem;
                         pd_Detail := "URL provided for SimpleHTTP was invalid" |} in
            let challenge := set_Error (Some pd) challenge in
            log_Debug (Sprintf "SimpleHTTP [%s] HTTP failure: %s" [AIdentifier identifier; AError err]);;
            mret (set_Status StatusInvalid challenge, Some err)
        | None => fetch W challenge accountKey url hostName
        end
    end.

(** ** DVSNI *)

(** Lines 347-369: the names of the leaf certificate are searched for
    [zName]. *)
Fixpoint dvsni_names (challenge : Challenge) (names : list string) (zName : string)
    : Challenge * option error :=
  match names with
  | [] =>
      let pd := {| pd_Type := UnauthorizedProblem;
                   pd_Detail := "Correct zName not found for DVSNI challenge" |} in
      (set_Status StatusInvalid (set_Error (Some pd) challenge), Some (ProblemError pd))
  | name :: rest =>
      if decide (subtle.ConstantTimeCompare (bytes_of name) (bytes_of zName) = 1)
      then (set_Status StatusValid challenge, None)
      else dvsni_names challenge rest zName
  end.

Definition validateDvsni (W : World) (va : ValidationAuthorityImpl)
    (identifier : AcmeIdentifier) (input : Challenge) (accountKey : JsonWebKey)
    : M (Challenge * option error) :=
  let challenge := input in
  if decide (id_Type identifier ≠ "dns") then
    let pd := {| pd_Type := MalformedProblem;
                 pd_Detail := "Identifier type for DVSNI was not DNS" |} in
    let challenge := set_Status StatusInvalid (set_Error (Some pd) challenge) in
    log_Debug (Sprintf "DVSNI [%s] Identifier failure" [AIdentifier identifier]);;
    mret (challenge, Some (ProblemError pd))
  else
    let DVSNIsuffix := ".acme.invalid" in
    let nonceName := Nonce challenge +:+ DVSNIsuffix in
    match core_B64dec W (R challenge) with
    | inr err =>
        let pd := {| pd_Type := MalformedProblem;
                     pd_Detail := "Failed to decode R value from DVSNI challenge" |} in
        let challenge := set_Error (Some pd) (set_Status StatusInvalid challenge) in
        log_Debug (Sprintf "DVSNI [%s] R Decode failure: %s" [AIdentifier identifier; AError err]);;
        mret (challenge, Some err)
    | inl R =>
        match core_B64dec W (S challenge) with
        | inr err =>
            let pd := {| pd_Type := MalformedProblem;
                         pd_Detail := "Failed to decode S value from DVSNI challenge" |} in
            let challenge := set_Error (Some pd) (set_Status StatusInvalid challenge) in
            log_Debug (Sprintf "DVSNI [%s] S Decode failure: %s" [AIdentifier identifier; AError err]);;
            mret (challenge, Some err)
        | inl S =>
            let RS := (R ++ S)%list in
            let z := sha256_Sum256 W RS in
            let zName := fmt.hex064 z +:+ ".acme.invalid" in
            emit (DNSLookupHost (id_Value identifier));;
            match LookupHost (va_DNSResolver va) (id_Value identifier) with
            | Some err =>
                let pd := lookup_problem W err in
                let challenge := set_Status StatusInvalid (set_Error (Some pd) challenge) in
                log_Debug (Sprintf "DVSNI [%s] DNS failure: %s" [AIdentifier identifier; AError err]);;
                mret (challenge, Some (ProblemError pd))
            | None =>
                let hostPort := if TestMode va then "localhost:5001"
                                else id_Value identifier +:+ ":443" in
                log_Notice (Sprintf "DVSNI [%s] Attempting to validate DVSNI for %s %s"
                              [AIdentifier identifier; AString hostPort; AString zName]);;
                emit (TLSDial hostPort nonceName);;
                match tls_DialWithDialer W hostPort nonceName with
                | inr err =>
                    let pd := {| pd_Type := parseHTTPConnError err;
                                 pd_Detail := "Failed to connect to host for DVSNI challenge" |} in
                    let challenge := set_Error (Some pd) (set_Status StatusInvalid challenge) in
                    log_Debug (Sprintf "DVSNI [%s] TLS Connection failure: %s"
                                 [AIdentifier identifier; AError err]);;
                    mret (challenge, Some err)
                | inl conn =>
                    let result :=
                      match PeerCertificates conn with
                      | [] =>
                          let pd := {| pd_Type := UnauthorizedProblem;
                                       pd_Detail := "No certs presented for DVSNI challenge" |} in
                          (set_Status StatusInvalid (set_Error (Some pd) challenge),
                           Some (ProblemError pd))
                      | leaf :: _ => dvsni_names challenge (DNSNames leaf) zName
                      end in
                    emit ConnClose;;
                    mret result
                end
            end
        end
    end.

(** ** DNS *)

(** Lines 429-442: the TXT strings are searched for the token. *)
Fixpoint dns_txts (challenge : Challenge) (txts : list string) (byteToken : list byte)
    : Challenge * option error :=
  match txts with
  | [] =>
      let pd := {| pd_Type := UnauthorizedProblem;
                   pd_Detail := "Correct value not found for DNS challenge" |} in
      (set_Status StatusInvalid (set_Error (Some pd) challenge), Some (ProblemError pd))
  | element :: rest =>
      if decide (subtle.ConstantTimeCompare (bytes_of element) byteToken = 1)
      then (set_Status StatusValid challenge, None)
      else dns_txts challenge rest byteToken
  end.

Definition validateDNS (W : World) (va : ValidationAuthorityImpl)
    (identifier : AcmeIdentifier) (input : Challenge) : M (Challenge * option error) :=
  let challenge := input in
  if decide (id_Type identifier ≠ IdentifierDNS) then
    let pd := {| pd_Type := MalformedProblem;
                 pd_Detail := "Identifier type for DNS was not itself DNS" |} in
    let challenge := set_Error (Some pd) challenge in
    log_Debug (Sprintf "DNS [%s] Identifier failure" [AIdentifier identifier]);;
    mret (set_Status StatusInvalid challenge, Some (ProblemError pd))
  else
    let DNSPrefix := "_acme-challenge" in
    let challengeSubdomain := DNSPrefix +:+ "." +:+ id_Value identifier in
    emit (DNSLookupTXT challengeSubdomain);;
    let '(txts, err) := LookupTXT (va_DNSResolver va) challengeSubdomain in
    match err with
    | Some err =>
        let pd := lookup_problem W err in
        let challenge := set_Status StatusInvalid (set_Error (Some pd) challenge) in
        log_Debug (Sprintf "DNS [%s] DNS failure: %s" [AIdentifier identifier; AError err]);;
        mret (challenge, Some (ProblemError pd))
    | None =>
        let byteToken := bytes_of (Token challenge) in
        mret (dns_txts challenge txts byteToken)
    end.

(** ** The dispatcher *)

(** [authz.Challenges[challengeIndex]] for a Go [int] index *)
Definition index (cs : list Challenge) (challengeIndex : Z) : option Challenge :=
  if decide (challengeIndex < 0) then None else cs !! Z.to_nat challengeIndex.

Definition store (cs : list Challenge) (challengeIndex : Z) (c : Challenge) : list Challenge :=
  <[Z.to_nat challengeIndex := c]> cs.

Definition set_ev_Challenge (c : Challenge) (e : verificationRequestEvent) :=
  {| ev_ID := ev_ID e; ev_Requester := ev_Requester e; ev_Challenge := c;
     ev_RequestTime := ev_RequestTime e; ev_ResponseTime := ev_ResponseTime e;
     ev_Error := ev_Error e |}.

Definition set_ev_Error (s : string) (e : verificationRequestEvent) :=
  {| ev_ID := ev_ID e; ev_Requester := ev_Requester e; ev_Challenge := ev_Challenge e;
     ev_RequestTime := ev_RequestTime e; ev_ResponseTime := ev_ResponseTime e;
     ev_Error := s |}.

(** The body of the goroutine.  It returns nothing in Go; the value
    returned here is the authorization as the body leaves it, whose
    challenge slice is the one the caller passed. *)
Definition validate (W : World) (va : ValidationAuthorityImpl)
    (authz : Authorization) (challengeIndex : Z) (accountKey : JsonWebKey)
    : M Authorization :=
  let logEvent := {| ev_ID := ID authz; ev_Requester := RegistrationID authz;
                     ev_Challenge := zero_Challenge; ev_RequestTime := time_Now W;
                     ev_ResponseTime := 0; ev_Error := "" |} in
  match index (Challenges authz) challengeIndex with
  | None => panic "index out of range"
  | Some selected =>
      '(authz, logEvent) ←
        (if negb (Challenge_IsSane W selected true) then
           let pd := {| pd_Type := MalformedProblem;
                        pd_Detail := "Challenge failed sanity check." |} in
           let chall := set_Error (Some pd) (set_Status StatusInvalid selected) in
           let authz := set_Challenges (store (Challenges authz) challengeIndex chall) authz in
           mret (authz, set_ev_Error (pd_Detail pd) (set_ev_Challenge chall logEvent))
         else
           '(authz, err) ←
             (if decide (Type_ selected = ChallengeTypeSimpleHTTP) then
                '(c, err) ← validateSimpleHTTP W va (Identifier authz) selected accountKey;
                mret (set_Challenges (store (Challenges authz) challengeIndex c) authz, err)
              else if decide (Type_ selected = ChallengeTypeDVSNI) then
                '(c, err) ← validateDvsni W va (Identifier authz) selected accountKey;
                mret (set_Challenges (store (Challenges authz) challengeIndex c) authz, err)
              else if decide (Type_ selected = ChallengeTypeDNS) then
                '(c, err) ← validateDNS W va (Identifier authz) selected;
                mret (set_Challenges (store (Challenges authz) challengeIndex c) authz, err)
              else mret (authz, None));
           match index (Challenges authz) challengeIndex with
           | None => panic "index out of range"
           | Some current =>
               let logEvent := set_ev_Challenge current logEvent in
               mret (authz, match err with
                            | Some e => set_ev_Error (Error_of W e) logEvent
                            | None => logEvent
                            end)
           end);
      emit (LogAuditObject "Validation result" logEvent);;
      log_Notice (Sprintf "Validations: %+v" [AAuthorization authz]);;
      emit (OnValidationUpdate authz);;
      mret authz
  end.

(** [UpdateValidations] returns nil at once; the second component is the
    goroutine it starts. *)
Definition UpdateValidations (W : World) (va : ValidationAuthorityImpl)
    (authz : Authorization) (challengeIndex : Z) (accountKey : JsonWebKey)
    : option error * M Authorization :=
  (None, validate W va authz challengeIndex accountKey).

(** ** CAA *)

Record CAASet := {
  Issue : list CAA;
  Issuewild : list CAA;
  Iodef : list CAA;
  Unknown : list CAA;
}.

Definition empty_CAASet : CAASet :=
  {| Issue := []; Issuewild := []; Iodef := []; Unknown := [] |}.

Definition criticalUnknown (caaSet : CAASet) : bool :=
  existsb (fun caaRecord => bool_decide (Flag caaRecord > 0)) (Unknown caaSet).

Definition file_CAA (filtered : CAASet) (caaRecord : CAA) : CAASet :=
  if decide (Tag caaRecord = "issue") then
    {| Issue := Issue filtered ++ [caaRecord]; Issuewild := Issuewild filtered;
       Iodef := Iodef filtered; Unknown := Unknown filtered |}
  else if decide (Tag caaRecord = "issuewild") then
    {| Issue := Issue filtered; Issuewild := Issuewild filtered ++ [caaRecord];
       Iodef := Iodef filtered; Unknown := Unknown filtered |}
  else if decide (Tag caaRecord = "iodef") then
    {| Issue := Issue filtered; Issuewild := Issuewild filtered;
       Iodef := Iodef filtered ++ [caaRecord]; Unknown := Unknown filtered |}
  else
    {| Issue := Issue filtered; Issuewild := Issuewild filtered;
       Iodef := Iodef filtered; Unknown := Unknown filtered ++ [caaRecord] |}.

Definition newCAASet (CAAs : list CAA) : CAASet :=
  fold_left file_CAA CAAs empty_CAASet.

(** [for _, alias := range []bool{false, true}]: [inl] is a [return] of
    the function, [inr tt] the end of the inner loop. *)
Fixpoint query_aliases (va : ValidationAuthorityImpl) (queryDomain : string)
    (aliases : list bool) : M (option CAASet * option error + unit) :=
  match aliases with
  | [] => mret (inr tt)
  | alias :: rest =>
      emit (DNSLookupCAA queryDomain alias);;
      let '(CAAs, err) := LookupCAA (va_DNSResolver va) queryDomain alias in
      match err with
      | Some e => mret (inl (None, Some e))
      | None =>
          if decide (0 < length CAAs)%nat then mret (inl (Some (newCAASet CAAs), None))
          else query_aliases va queryDomain rest
      end
  end.

(** [for i := range splitDomain], on [splitDomain[i:]] *)
Fixpoint walk (W : World) (va : ValidationAuthorityImpl) (labels : list string)
    : M (option CAASet * option error) :=
  match labels with
  | [] => mret (None, None)
  | _ :: rest =>
      let queryDomain := strings.Join labels "." in
      if decide (queryDomain ∈ policy_PublicSuffixList W) then mret (None, None)
      else
        r ← query_aliases va queryDomain [false; true];
        match r with
        | inl returned => mret returned
        | inr _ => walk W va rest
        end
  end.

(** The parameter [dnsResolver] of the Go function is not used by its
    body, which asks [va.DNSResolver]. *)
Definition getCAASet (W : World) (va : ValidationAuthorityImpl) (domain : string)
    : M (option CAASet * option error) :=
  let domain := strings.TrimRight domain "." in
  let splitDomain := strings.Split domain "." in
  walk W va splitDomain.

(** Lines 593-604 *)
Fixpoint scan (issuerDomain : string) (checkSet : list CAA) : bool :=
  match checkSet with
  | [] => false
  | caa :: rest =>
      if decide (Value caa = issuerDomain) then true
      else if decide (Flag caa > 0) then false
      else scan issuerDomain rest
  end.

(** The results are [(present, valid, err)]. *)
Definition CheckCAARecords (W : World) (va : ValidationAuthorityImpl)
    (identifier : AcmeIdentifier) : M (bool * bool * option error) :=
  let domain := strings_ToLower W (id_Value identifier) in
  '(caaSet, err) ← getCAASet W va domain;
  match err with
  | Some e => mret (false, false, Some e)
  | None =>
      match caaSet with
      | None => mret (false, true, None)
      | Some caaSet =>
          if criticalUnknown caaSet then mret (true, false, None)
          else if decide (0 < length (Issue caaSet) ∨ 0 < length (Issuewild caaSet))%nat then
            match strings.SplitN domain "." 2 with
            | [] => panic "index out of range"
            | first :: _ =>
                let checkSet := if decide (first = "*") then Issuewild caaSet
                                else Issue caaSet in
                mret (true, scan (IssuerDomain va) checkSet, None)
            end
          else mret (false, false, None)
      end
  end.

(** ** The walk, as the specification words it *)

Module Walk.

(** the suffix sequence [x.y.z.com, y.z.com, z.com, ...] of a list of
    labels *)
Fixpoint candidates (labels : list string) : list string :=
  match labels with
  | [] => []
  | _ :: rest => strings.Join labels "." :: candidates rest
  end.

(** the candidates before the first one of the public-suffix set *)
Fixpoint before_public_suffix (psl : gset string) (names : list string) : list string :=
  match names with
  | [] => []
  | name :: rest =>
      if decide (name ∈ psl) then [] else name :: before_public_suffix psl rest
  end.

(** at each candidate: the plain query, then the one that follows a
    CNAME *)
Definition queries (names : list string) : list (string * bool) :=
  names ≫= λ name, [(name, false); (name, true)].

(** The first query with an answer that is not empty ends the walk; so
    does a query that fails.  The result comes with the queries made. *)
Fixpoint first_answer (dns : DNSResolver) (qs : list (string * bool))
    : list Event * (option CAASet * option error) :=
  match qs with
  | [] => ([], (None, None))
  | (name, alias) :: rest =>
      match LookupCAA dns name alias with
      | (_, Some e) => ([DNSLookupCAA name alias], (None, Some e))
      | (CAAs, None) =>
          if decide (0 < length CAAs)%nat
          then ([DNSLookupCAA name alias], (Some (newCAASet CAAs), None))
          else let r := first_answer dns rest in
               (DNSLookupCAA name alias :: r.1, r.2)
      end
  end.

Definition walk_of (W : World) (va : ValidationAuthorityImpl) (domain : string)
    : list Event * (option CAASet * option error) :=
  let labels := strings.Split (strings.TrimRight domain ".") "." in
  first_answer (va_DNSResolver va)
    (queries (before_public_suffix (policy_PublicSuffixList W) (candidates labels))).

End Walk.

(** ** Worlds and inputs of the scenarios *)

Module Scenario.

Definition lower (c : ascii) : ascii :=
  let n := nat_of_ascii c in
  if (65 <=? n)%nat && (n <=? 90)%nat then ascii_of_nat (n + 32) else c.

Definition upper (c : ascii) : ascii :=
  let n := nat_of_ascii c in
  if (97 <=? n)%nat && (n <=? 122)%nat then ascii_of_nat (n - 32) else c.

Fixpoint map_bytes (f : ascii -> ascii) (s : string) : string :=
  match s with
  | EmptyString => EmptyString
  | String c rest => String (f c) (map_bytes f rest)
  end.

Definition accountKey : JsonWebKey :=
  {| KeyID := "account"; Algorithm := "RS256"; Key := [x01; x00; x01] |}.

Definition otherKey : JsonWebKey :=
  {| KeyID := "intruder"; Algorithm := "RS256"; Key := [x01; x00; x01] |}.

(** A world in which the HTTP client answers [answer], a body that is
    not empty parses as a JWS with the one signature of [signer] which
    verifies, and the payload decodes to [parsed]. *)
Definition world (answer : option Response * option error) (signer : JsonWebKey)
    (parsed : gmap string JSON) : World :=
  {| time_Now := 1435000000;
     strings_ToLower := map_bytes lower;
     strings_ToUpper := map_bytes upper;
     policy_PublicSuffixList := {[ "example"; "com" ]};
     core_B64dec := λ s, inl (bytes_of s);
     sha256_Sum256 := λ _, replicate 32 x00;
     core_KeyDigestEquals := λ key account,
       bool_decide (KeyID <$> key = Some (KeyID account));
     Challenge_IsSane := λ c _, bool_decide (Token c ≠ "");
     ProblemDetails_Error := λ pd, pd_Type pd +:+ " :: " +:+ pd_Detail pd;
     http_NewRequest := λ _ _, None;
     http_Do := λ _ _, answer;
     jose_ParseSigned := λ body,
       if decide (body = "") then inr (errorString "compact JWS format must have three parts")
       else inl {| Signatures := [Some signer]; jws_raw := body |};
     jose_Verify := λ jws _, inl (bytes_of (jws_raw jws));
     json_Unmarshal := λ _, inl parsed;
     tls_DialWithDialer := λ _ _, inr (net_OpError "dial tcp: connection refused"
                                         (errorString "connection refused")) |}.

(** a resolver that finds every host and the given TXT and CAA
    records *)
Definition resolver (txt : string -> list string) (caa : string -> list CAA) : DNSResolver :=
  {| LookupHost := λ _, None;
     LookupTXT := λ name, (txt name, None);
     LookupCAA := λ name alias, (if alias then [] else caa name, None) |}.

Definition va (dns : DNSResolver) : ValidationAuthorityImpl :=
  {| va_DNSResolver := dns; IssuerDomain := "my-ca.example"; TestMode := false |}.

Definition no_records : DNSResolver := resolver (λ _, []) (λ _, []).

Definition va_quiet : ValidationAuthorityImpl := va no_records.

Definition d_example : AcmeIdentifier := {| id_Type := "dns"; id_Value := "d.example" |}.

(** the SimpleHTTP challenge of scenario S1, with its [tls] field *)
Definition simpleHTTP (tls : option bool) : Challenge :=
  {| Type_ := ChallengeTypeSimpleHTTP; Status := StatusPending; Error := None;
     Token := "tok"; Path := "abc"; TLS := tls; Nonce := ""; R := ""; S := "" |}.

(** the payload of scenario S1 *)
Definition payload_S1 : gmap string JSON :=
  {[ "type" := JString "simpleHttp"; "token" := JString "tok";
     "path" := JString "abc"; "tls" := JBool true ]}.

Definition signed_body : string := "eyJhbGciOiJSUzI1NiJ9.e30.c2ln".

(** the server answers 200 with a body that is not a JWS *)
Definition world_not_jws : World :=
  world (Some {| StatusCode := 200; Body := inl "" |}, None) accountKey payload_S1.

(** the server answers 404 and, as the body, the JWS of scenario S1 *)
Definition world_404 : World :=
  world (Some {| StatusCode := 404; Body := inl signed_body |}, None) accountKey payload_S1.

(** the connection is refused: no response, a transport error *)
Definition refused : error :=
  url_Error "Get https://d.example/.well-known/acme-challenge/abc: connection refused"
    (net_OpError "dial tcp: connection refused" (errorString "connection refused")).

Definition world_refused : World := world (None, Some refused) accountKey payload_S1.

(** scenario S1, and scenario S3: the same with another signer *)
Definition world_S1 : World :=
  world (Some {| StatusCode := 200; Body := inl signed_body |}, None) accountKey payload_S1.

Definition world_S3 : World :=
  world (Some {| StatusCode := 200; Body := inl signed_body |}, None) otherKey payload_S1.

(** scenario S1 with a payload whose [tls] entry is false *)
Definition payload_tls_false : gmap string JSON :=
  {[ "type" := JString "simpleHttp"; "token" := JString "tok";
     "path" := JString "abc"; "tls" := JBool false ]}.

Definition world_tls_false : World :=
  world (Some {| StatusCode := 200; Body := inl signed_body |}, None) accountKey
    payload_tls_false.

(** CAA: the only record of [d.example] is an [iodef] one *)
Definition iodef_only : DNSResolver :=
  resolver (λ _, [])
    (λ name, if decide (name = "d.example")
             then [ {| Flag := 0; Tag := "iodef"; Value := "mailto:security@d.example" |} ]
             else []).

(** scenario S7 *)
Definition dns_S7 : DNSResolver :=
  resolver (λ _, [])
    (λ name, if decide (name = "d.example")
             then [ {| Flag := 0; Tag := "issue"; Value := "my-ca.example" |} ]
             else []).

(** scenario S5 *)
Definition dns_S5 : DNSResolver :=
  resolver (λ name, if decide (name = "_acme-challenge.d.example")
                    then ["not-the-token"; "expected-token"] else [])
    (λ _, []).

Definition dns_challenge : Challenge :=
  {| Type_ := ChallengeTypeDNS; Status := StatusPending; Error := None;
     Token := "expected-token"; Path := ""; TLS := None; Nonce := ""; R := ""; S := "" |}.

(** a challenge of a type the dispatcher does not know *)
Definition proofOfPossession : Challenge :=
  {| Type_ := "proofOfPossession"; Status := StatusPending; Error := None;
     Token := "tok"; Path := ""; TLS := None; Nonce := ""; R := ""; S := "" |}.

Definition authz (cs : list Challenge) : Authorization :=
  {| ID := "authz-1"; RegistrationID := 7; Identifier := d_example; Challenges := cs |}.


Definition va_S5 : ValidationAuthorityImpl := va dns_S5.
Definition va_S7 : ValidationAuthorityImpl := va dns_S7.

(** [W], except that every TLS dial succeeds with [conn] *)
Definition with_conn (W : World) (conn : Conn) : World :=
  {| time_Now := time_Now W;
     strings_ToLower := strings_ToLower W;
     strings_ToUpper := strings_ToUpper W;
     policy_PublicSuffixList := policy_PublicSuffixList W;
     core_B64dec := core_B64dec W;
     sha256_Sum256 := sha256_Sum256 W;
     core_KeyDigestEquals := core_KeyDigestEquals W;
     Challenge_IsSane := Challenge_IsSane W;
     ProblemDetails_Error := ProblemDetails_Error W;
     http_NewRequest := http_NewRequest W;
     http_Do := http_Do W;
     jose_ParseSigned := jose_ParseSigned W;
     jose_Verify := jose_Verify W;
     json_Unmarshal := json_Unmarshal W;
     tls_DialWithDialer := λ _ _, inl conn |}.

(** [W], except that base64 decoding fails *)
Definition without_base64 (W : World) : World :=
  {| time_Now := time_Now W;
     strings_ToLower := strings_ToLower W;
     strings_ToUpper := strings_ToUpper W;
     policy_PublicSuffixList := policy_PublicSuffixList W;
     core_B64dec := λ _, inr (errorString "illegal base64 data at input byte 0");
     sha256_Sum256 := sha256_Sum256 W;
     core_KeyDigestEquals := core_KeyDigestEquals W;
     Challenge_IsSane := Challenge_IsSane W;
     ProblemDetails_Error := ProblemDetails_Error W;
     http_NewRequest := http_NewRequest W;
     http_Do := http_Do W;
     jose_ParseSigned := jose_ParseSigned W;
     jose_Verify := jose_Verify W;
     json_Unmarshal := json_Unmarshal W;
     tls_DialWithDialer := tls_DialWithDialer W |}.

Definition dvsni_challenge : Challenge :=
  {| Type_ := ChallengeTypeDVSNI; Status := StatusPending; Error := None;
     Token := "tok"; Path := ""; TLS := None; Nonce := "a1b2c3"; R := "cg"; S := "cw" |}.

(** the name scenario [world_S1] derives for [dvsni_challenge] *)
Definition dvsni_zName : string :=
  "0000000000000000000000000000000000000000000000000000000000000000.acme.invalid".

(** a peer whose leaf certificate names [dvsni_zName] *)
Definition conn_S4 : Conn :=
  {| PeerCertificates := [ {| DNSNames := ["d.example"; dvsni_zName] |} ] |}.

Definition world_S4 : World := with_conn world_S1 conn_S4.

(** an identifier that is not a DNS name *)
Definition an_address : AcmeIdentifier := {| id_Type := "ip"; id_Value := "192.0.2.1" |}.

(** a challenge that fails the sanity check of [world_S1] *)
Definition tokenless : Challenge :=
  {| Type_ := ChallengeTypeDNS; Status := StatusPending; Error := None;
     Token := ""; Path := ""; TLS := None; Nonce := ""; R := ""; S := "" |}.

Definition wildcard_d_example : AcmeIdentifier :=
  {| id_Type := "dns"; id_Value := "*.d.example" |}.

Definition issue_my_ca : CAA := {| Flag := 0; Tag := "issue"; Value := "my-ca.example" |}.

(** [d.example] has a critical record with a tag of the future next to
    [issue "my-ca.example"] *)
Definition critical_unknown : CAA := {| Flag := 128; Tag := "tbs"; Value := "unknown" |}.

Definition dns_critical : DNSResolver :=
  resolver (λ _, [])
    (λ name, if decide (name = "d.example") then [issue_my_ca; critical_unknown] else []).

(** a SimpleHTTP challenge without a path *)
Definition pathless : Challenge :=
  {| Type_ := ChallengeTypeSimpleHTTP; Status := StatusPending; Error := None;
     Token := "tok"; Path := ""; TLS := None; Nonce := ""; R := ""; S := "" |}.

(** [W], except that every body parses as a JWS with the signatures
    [sigs] *)
Definition with_signatures (W : World) (sigs : list (option JsonWebKey)) : World :=
  {| time_Now := time_Now W;
     strings_ToLower := strings_ToLower W;
     strings_ToUpper := strings_ToUpper W;
     policy_PublicSuffixList := policy_PublicSuffixList W;
     core_B64dec := core_B64dec W;
     sha256_Sum256 := sha256_Sum256 W;
     core_KeyDigestEquals := core_KeyDigestEquals W;
     Challenge_IsSane := Challenge_IsSane W;
     ProblemDetails_Error := ProblemDetails_Error W;
     http_NewRequest := http_NewRequest W;
     http_Do := http_Do W;
     jose_ParseSigned := λ body, inl {| Signatures := sigs; jws_raw := body |};
     jose_Verify := jose_Verify W;
     json_Unmarshal := json_Unmarshal W;
     tls_DialWithDialer := tls_DialWithDialer W |}.

Definition com_dot : AcmeIdentifier := {| id_Type := "dns"; id_Value := "COM." |}.

End Scenario.


(** ** Vocabulary of the statements *)

Definition is_dns_query (e : Event) : bool :=
  match e with
  | DNSLookupHost _ | DNSLookupTXT _ | DNSLookupCAA _ _ => true
  | _ => false
  end.

(** the queries sent to the resolver, in order *)
Definition dns_queries (t : list Event) : list Event :=
  List.filter is_dns_query t.

(** the type of the problem a challenge carries, if it carries one *)
Definition problem_of (c : Challenge) : option ProblemType := pd_Type <$> Error c.

(** a failure as the specification wants it to surface on a challenge *)
Definition surfaces_failure (c : Challenge) : Prop :=
  Status c = StatusInvalid ∧ ∃ t, problem_of c = Some t ∧ t ∈ problem_types.

(** a validator result that failed: a companion error or an [invalid]
    status *)
Definition failed (r : Challenge * option error) : Prop :=
  r.2 ≠ None ∨ Status r.1 = StatusInvalid.

(** the one payload [checkPayload] lets through for a challenge *)
Definition accepted_payload (challenge : Challenge) : gmap string JSON :=
  {[ "type" := JString ChallengeTypeSimpleHTTP;
     "token" := JString (Token challenge);
     "path" := JString (Path challenge);
     "tls" := JBool (match TLS challenge with Some b => b | None => false end) ]}.

(** a call that leaves the process: a lookup, the HTTP request, the TLS
    dial *)
Definition is_network (e : Event) : bool :=
  match e with
  | DNSLookupHost _ | DNSLookupTXT _ | DNSLookupCAA _ _ | HTTPDo _ _ | TLSDial _ _ => true
  | _ => false
  end.

Definition network_events (t : list Event) : list Event := List.filter is_network t.

(** the audit object and the call on the Registration Authority *)
Definition is_report (e : Event) : bool :=
  match e with
  | LogAuditObject _ _ | OnValidationUpdate _ => true
  | _ => false
  end.

Definition reports (t : list Event) : list Event := List.filter is_report t.

Definition is_close (e : Event) : bool :=
  match e with ConnClose => true | _ => false end.

Definition is_request (e : Event) : bool :=
  match e with HTTPDo _ _ => true | _ => false end.

(** two challenges that differ at most in [Status] and [Error] *)
Definition same_fields (c c' : Challenge) : Prop :=
  Type_ c = Type_ c' ∧ Token c = Token c' ∧ Path c = Path c' ∧ TLS c = TLS c' ∧
  Nonce c = Nonce c' ∧ R c = R c' ∧ S c = S c'.

(** a validator run that refused its input as malformed before any call
    left the process *)
Definition rejected_unsent (r : M (Challenge * option error)) : Prop :=
  network_events (trace r) = [] ∧
  ∃ c pd, outcome r = Returned (c, Some (ProblemError pd)) ∧
          Status c = StatusInvalid ∧ Error c = Some pd ∧ pd_Type pd = MalformedProblem.

(** the name DVSNI looks for in the certificate *)
Definition zName_of (W : World) (r s : list byte) : string :=
  fmt.hex064 (sha256_Sum256 W (r ++ s)%list) +:+ ".acme.invalid".

(** where DVSNI dials *)
Definition hostPort_of (va : ValidationAuthorityImpl) (identifier : AcmeIdentifier) : string :=
  if TestMode va then "localhost:5001" else id_Value identifier +:+ ":443".

(** what every returning validator run leaves: the input with, at
    most, another status and error; a status that is [valid] or [invalid];
    a nil companion error exactly with [valid] *)
Definition verdict (input : Challenge) (r : Challenge * option error) : Prop :=
  same_fields input r.1 ∧
  (r.2 = None ↔ Status r.1 = StatusValid) ∧
  (Status r.1 = StatusValid ∨ Status r.1 = StatusInvalid).

(** the label [CheckCAARecords] compares with [*]:
    [strings.SplitN(domain, ".", 2)[0]] *)
Definition first_label (domain : string) : string :=
  match strings.Cut domain "." with
  | Some (before, _) => before
  | None => domain
  end.

(** a tag that is none of [issue], [issuewild] and [iodef] *)
Definition unknown_tag (r : CAA) : Prop := Tag r ∉ ["issue"; "issuewild"; "iodef"].

(** the records of a list that carry a given tag *)
Definition tagged (tag : string) (CAAs : list CAA) : list CAA :=
  filter (λ r, Tag r = tag) CAAs.

(** * Properties *)

(** ** The constant-time comparison decides equality *)

Lemma to_N_inj (a b : byte) : Byte.to_N a = Byte.to_N b → a = b.
Proof.
  intros H. pose proof (Byte.of_to_N a) as Ha. rewrite H, Byte.of_to_N in Ha.
  congruence.
Qed.

Lemma xor_fold_zero (x : list byte) :
  ∀ (y : list byte) (v : N), length x = length y →
    subtle.xor_fold x y v = 0%N ↔ v = 0%N ∧ x = y.
Proof.
  induction x as [|a x IH]; intros [|b y] v Hlen; simpl in *; try discriminate.
  - intuition.
  - injection Hlen as Hlen. rewrite (IH y _ Hlen), N.lor_eq_0_iff. split.
    + intros [[Hv Hab] Hxy]. apply N.lxor_eq, to_N_inj in Hab. by subst.
    + intros [Hv Heq]. injection Heq as -> ->. by rewrite N.lxor_nilpotent.
Qed.

Lemma ConstantTimeCompare_spec (x y : list byte) :
  subtle.ConstantTimeCompare x y = 1 ↔ x = y.
Proof.
  unfold subtle.ConstantTimeCompare, subtle.ConstantTimeByteEq.
  destruct (decide (length x = length y)) as [Hlen|Hlen].
  - rewrite N.lxor_0_r. pose proof (xor_fold_zero x y 0%N Hlen) as H.
    case_decide; split; intros; try done; try tauto.
  - split; [done | intros ->; done].
Qed.

Lemma bytes_of_inj (s t : string) : bytes_of s = bytes_of t → s = t.
Proof.
  unfold bytes_of. intros H.
  rewrite <- (string_of_list_byte_of_string s), <- (string_of_list_byte_of_string t).
  by rewrite H.
Qed.

Lemma compare_strings (s t : string) :
  subtle.ConstantTimeCompare (bytes_of s) (bytes_of t) = 1 ↔ s = t.
Proof.
  rewrite ConstantTimeCompare_spec. split; [apply bytes_of_inj | by intros ->].
Qed.

(** ** The classifier has three answers *)

Lemma parseHTTPConnError_range (err : error) :
  parseHTTPConnError err ∈ [UnknownHostProblem; TLSProblem; ConnectionProblem].
Proof.
  unfold parseHTTPConnError.
  repeat match goal with
         | |- context [match ?e with _ => _ end] => destruct e; simpl
         end; apply list_elem_of_In; simpl; tauto.
Qed.

Lemma parseHTTPConnError_closed (err : error) : parseHTTPConnError err ∈ problem_types.
Proof.
  pose proof (parseHTTPConnError_range err) as H.
  apply list_elem_of_In in H. apply list_elem_of_In. simpl in *. tauto.
Qed.

Lemma lookup_problem_closed (W : World) (err : error) :
  pd_Type (lookup_problem W err) ∈ problem_types.
Proof. destruct err; simpl; apply list_elem_of_In; simpl; tauto. Qed.

(** ** The search loops of the DNS and DVSNI validators *)

Lemma dns_txts_found (challenge : Challenge) (txts : list string) :
  Token challenge ∈ txts →
  dns_txts challenge txts (bytes_of (Token challenge)) = (set_Status StatusValid challenge, None).
Proof.
  induction txts as [|t txts IH]; intros Hin; simpl.
  - by apply elem_of_nil in Hin.
  - destruct (decide _) as [Hc|Hc]; [done | ].
    apply elem_of_cons in Hin as [Heq|Hin]; [ | auto].
    exfalso. apply Hc. by apply compare_strings.
Qed.

Lemma dns_txts_missing (challenge : Challenge) (txts : list string) :
  Token challenge ∉ txts →
  dns_txts challenge txts (bytes_of (Token challenge)) =
    (let pd := {| pd_Type := UnauthorizedProblem;
                  pd_Detail := "Correct value not found for DNS challenge" |} in
     (set_Status StatusInvalid (set_Error (Some pd) challenge), Some (ProblemError pd))).
Proof.
  induction txts as [|t txts IH]; intros Hin; simpl; [done | ].
  apply not_elem_of_cons in Hin as [Hne Hin].
  destruct (decide _) as [Hc|Hc]; [ | auto].
  rewrite compare_strings in Hc. congruence.
Qed.

Lemma dvsni_names_found (challenge : Challenge) (names : list string) (zName : string) :
  zName ∈ names →
  dvsni_names challenge names zName = (set_Status StatusValid challenge, None).
Proof.
  induction names as [|n names IH]; intros Hin; simpl.
  - by apply elem_of_nil in Hin.
  - destruct (decide _) as [Hc|Hc]; [done | ].
    apply elem_of_cons in Hin as [Heq|Hin]; [ | auto].
    exfalso. apply Hc. by apply compare_strings.
Qed.

Lemma dvsni_names_missing (challenge : Challenge) (names : list string) (zName : string) :
  zName ∉ names →
  dvsni_names challenge names zName =
    (let pd := {| pd_Type := UnauthorizedProblem;
                  pd_Detail := "Correct zName not found for DVSNI challenge" |} in
     (set_Status StatusInvalid (set_Error (Some pd) challenge), Some (ProblemError pd))).
Proof.
  induction names as [|n names IH]; intros Hin; simpl; [done | ].
  apply not_elem_of_cons in Hin as [Hne Hin].
  destruct (decide _) as [Hc|Hc]; [ | auto].
  rewrite compare_strings in Hc. congruence.
Qed.

(** ** The DNS validator *)

(** C8: for a DNS identifier, [validateDNS] sends one query, for the TXT
    records of [_acme-challenge.{identifier.value}]; when the lookup fails
    with a DNSSEC error the challenge comes back [invalid] with a [dnssec]
    problem, when it fails otherwise with a [serverInternal] one; when it
    succeeds the challenge is [valid] exactly when one of the TXT strings
    is the token, and [invalid] with an [unauthorized] problem when none
    is. *)
Theorem C8_validateDNS (W : World) (va : ValidationAuthorityImpl)
    (identifier : AcmeIdentifier) (input : Challenge) :
  id_Type identifier = IdentifierDNS →
  let name := "_acme-challenge." +:+ id_Value identifier in
  let answer := LookupTXT (va_DNSResolver va) name in
  let r := validateDNS W va identifier input in
  dns_queries (trace r) = [DNSLookupTXT name] ∧
  ∃ c e, outcome r = Returned (c, e) ∧
    (∀ msg, answer.2 = Some (DNSSECError msg) →
       Status c = StatusInvalid ∧ problem_of c = Some DNSSECProblem) ∧
    (∀ err, answer.2 = Some err → (∀ msg, err ≠ DNSSECError msg) →
       Status c = StatusInvalid ∧ problem_of c = Some ServerInternalProblem) ∧
    (answer.2 = None →
       (Status c = StatusValid ↔ Token input ∈ answer.1) ∧
       (Token input ∉ answer.1 →
          Status c = StatusInvalid ∧ problem_of c = Some UnauthorizedProblem)).
Proof.
  intros Hdns name answer r. subst r. unfold validateDNS.
  destruct (decide (id_Type identifier ≠ IdentifierDNS)) as [Hne|_]; [done | ].
  change ("_acme-challenge" +:+ "." +:+ id_Value identifier) with name.
  fold answer. destruct answer as [txts [err|]]; simpl.
  - split; [done | ]. eexists _, _. split; [done | ].
    split; [ | split]; [intros msg [= ->]; done | | done].
    intros err' [= <-] Hnot. destruct err; try done. by destruct (Hnot msg).
  - split; [done | ]. destruct (decide (Token input ∈ txts)) as [Hin|Hin].
    + rewrite (dns_txts_found input txts Hin). eexists _, _. split; [done | ].
      repeat split; try done.
    + rewrite (dns_txts_missing input txts Hin). eexists _, _. split; [done | ].
      repeat split; try done.
Qed.

(** ** The dispatcher *)

(** C9: when the indexed challenge passes the sanity check and its type
    is none of [simpleHttp], [dvsni] and [dns], the validation body does
    three things and no other: it emits the audit event, which carries the
    challenge as it was and no error text, it logs a notice, and it calls
    the Registration Authority once, with the authorization it was given;
    no challenge has changed. *)
Theorem C9_unrecognized_type (W : World) (va : ValidationAuthorityImpl)
    (authz : Authorization) (challengeIndex : Z) (accountKey : JsonWebKey)
    (selected : Challenge) :
  index (Challenges authz) challengeIndex = Some selected →
  Challenge_IsSane W selected true = true →
  Type_ selected ∉ [ChallengeTypeSimpleHTTP; ChallengeTypeDVSNI; ChallengeTypeDNS] →
  validate W va authz challengeIndex accountKey =
    ([LogAuditObject "Validation result"
        {| ev_ID := ID authz; ev_Requester := RegistrationID authz;
           ev_Challenge := selected; ev_RequestTime := time_Now W;
           ev_ResponseTime := 0; ev_Error := "" |};
      LogNotice (Sprintf "Validations: %+v" [AAuthorization authz]);
      OnValidationUpdate authz],
     Returned authz).
Proof.
  intros Hidx Hsane Htype. unfold validate. rewrite Hidx, Hsane. simpl.
  rewrite !not_elem_of_cons in Htype. destruct Htype as (H1 & H2 & H3 & _).
  destruct (decide (Type_ selected = ChallengeTypeSimpleHTTP)) as [?|_]; [done | ].
  destruct (decide (Type_ selected = ChallengeTypeDVSNI)) as [?|_]; [done | ].
  destruct (decide (Type_ selected = ChallengeTypeDNS)) as [?|_]; [done | ].
  unfold mbind, M_bind. simpl. rewrite Hidx. reflexivity.
Qed.

(** C10: the goroutine that [UpdateValidations] starts reads
    [authz.Challenges[challengeIndex]] unguarded.  For an index outside
    [0 <= challengeIndex < len(authz.Challenges)] it panics before it has
    logged anything or called the Registration Authority, so it can only
    return when the index is in range; [UpdateValidations] itself has
    returned nil. *)
Theorem C10_index_unchecked (W : World) (va : ValidationAuthorityImpl)
    (authz : Authorization) (challengeIndex : Z) (accountKey : JsonWebKey) :
  let started := UpdateValidations W va authz challengeIndex accountKey in
  started.1 = None ∧
  started.2 = validate W va authz challengeIndex accountKey ∧
  (¬ (0 ≤ challengeIndex < Z.of_nat (length (Challenges authz))) →
     started.2 = ([], Panicked "index out of range")) ∧
  (∀ a, outcome started.2 = Returned a →
     0 ≤ challengeIndex < Z.of_nat (length (Challenges authz))).
Proof.
  simpl. split; [done | ]. split; [done | ].
  assert (Hout : ¬ (0 ≤ challengeIndex < Z.of_nat (length (Challenges authz))) →
                 validate W va authz challengeIndex accountKey =
                   ([], Panicked "index out of range")).
  { intros Hrange. unfold validate, index.
    destruct (decide (challengeIndex < 0)) as [Hneg|Hpos]; [done | ].
    rewrite lookup_ge_None_2; [done | lia]. }
  split; [exact Hout | ].
  intros a Hret.
  destruct (decide (0 ≤ challengeIndex < Z.of_nat (length (Challenges authz)))) as [?|Hno];
    [done | ].
  rewrite (Hout Hno) in Hret. discriminate.
Qed.

(** ** Strings: splitting and joining a domain name *)

Lemma Split_nonempty (s : string) (sep : ascii) : strings.Split s sep ≠ [].
Proof.
  destruct s as [|c r]; simpl; [done | ].
  destruct (decide (c = sep)); [done | ]. by destruct (strings.Split r sep).
Qed.

Lemma Join_cons (x : string) (rest : list string) (sep : string) :
  rest ≠ [] → strings.Join (x :: rest) sep = x +:+ sep +:+ strings.Join rest sep.
Proof. by destruct rest. Qed.

Lemma Join_Split (s : string) (sep : ascii) :
  strings.Join (strings.Split s sep) (String sep EmptyString) = s.
Proof.
  induction s as [|c r IH]; simpl; [done | ].
  pose proof (Split_nonempty r sep) as Hne.
  destruct (decide (c = sep)) as [->|Hc].
  - rewrite Join_cons by done. simpl. by rewrite IH.
  - destruct (strings.Split r sep) as [|f fs]; [done | ].
    destruct fs as [|g fs]; simpl in *; by rewrite <- IH.
Qed.



(** ** The walk of [getCAASet] is the walk of the specification *)

Lemma bind_returned {A B : Type} (m : M A) (f : A → M B) (t : list Event) (a : A) :
  m = (t, Returned a) → m ≫= f = ((t ++ (f a).1)%list, (f a).2).
Proof. by intros ->. Qed.

Lemma walk_refines (W : World) (va : ValidationAuthorityImpl) (labels : list string) :
  walk W va labels =
    (let r := Walk.first_answer (va_DNSResolver va)
                (Walk.queries (Walk.before_public_suffix (policy_PublicSuffixList W)
                                 (Walk.candidates labels))) in
     (r.1, Returned r.2)).
Proof.
  induction labels as [|label rest IH]; [done | ].
  cbn [walk Walk.candidates Walk.before_public_suffix].
  destruct (decide (strings.Join (label :: rest) "." ∈ policy_PublicSuffixList W));
    [done | ].
  set (name := strings.Join (label :: rest) ".") in *.
  unfold Walk.queries. rewrite bind_cons. fold (Walk.queries).
  cbn [query_aliases Walk.first_answer app].
  destruct (LookupCAA (va_DNSResolver va) name false) as [CAAs [e|]]; [done | ].
  destruct (decide (0 < length CAAs)%nat); [done | ].
  destruct (LookupCAA (va_DNSResolver va) name true) as [CAAs' [e|]]; [done | ].
  destruct (decide (0 < length CAAs')%nat); [done | ].
  rewrite IH. reflexivity.
Qed.

Lemma getCAASet_walk_of (W : World) (va : ValidationAuthorityImpl) (domain : string) :
  getCAASet W va domain =
    ((Walk.walk_of W va domain).1, Returned (Walk.walk_of W va domain).2).
Proof. unfold getCAASet, Walk.walk_of. by rewrite walk_refines. Qed.


(** ** Where the validators do surface their failures *)

Ltac returned H :=
  unfold outcome, mbind, M_bind, mret, M_ret, log_Debug, log_Notice, emit in H;
  simpl in H; injection H as <-.

Ltac closed_set :=
  first [ apply lookup_problem_closed
        | apply parseHTTPConnError_closed
        | apply list_elem_of_In; simpl; tauto ].

Ltac surfaced :=
  split; [reflexivity | eexists; split; [reflexivity | closed_set]].

Lemma dns_txts_surfaces (challenge : Challenge) (txts : list string) (token : list byte) :
  failed (dns_txts challenge txts token) →
  surfaces_failure (dns_txts challenge txts token).1.
Proof.
  induction txts as [|t txts IH]; simpl; [intros _; surfaced | ].
  destruct (decide _); [ | done].
  intros [Herr|Hstatus]; simpl in *; done.
Qed.

Lemma dvsni_names_surfaces (challenge : Challenge) (names : list string) (zName : string) :
  failed (dvsni_names challenge names zName) →
  surfaces_failure (dvsni_names challenge names zName).1.
Proof.
  induction names as [|n names IH]; simpl; [intros _; surfaced | ].
  destruct (decide _); [ | done].
  intros [Herr|Hstatus]; simpl in *; done.
Qed.

(** Every failing result of [validateDNS] is [invalid] and carries a
    problem of the closed set. *)
Lemma validateDNS_surfaces_failure (W : World) (va : ValidationAuthorityImpl)
    (identifier : AcmeIdentifier) (input : Challenge) (r : Challenge * option error) :
  outcome (validateDNS W va identifier input) = Returned r →
  failed r → surfaces_failure r.1.
Proof.
  unfold validateDNS. intros Hret.
  destruct (decide (id_Type identifier ≠ IdentifierDNS)).
  { returned Hret. intros _. surfaced. }
  destruct (LookupTXT _ _) as [txts [err|]].
  { returned Hret. intros _. surfaced. }
  returned Hret. apply dns_txts_surfaces.
Qed.

(** So is every failing result of [validateDvsni]. *)
Lemma validateDvsni_surfaces_failure (W : World) (va : ValidationAuthorityImpl)
    (identifier : AcmeIdentifier) (input : Challenge) (accountKey : JsonWebKey)
    (r : Challenge * option error) :
  outcome (validateDvsni W va identifier input accountKey) = Returned r →
  failed r → surfaces_failure r.1.
Proof.
  unfold validateDvsni. intros Hret.
  destruct (decide (id_Type identifier ≠ "dns")).
  { returned Hret. intros _. surfaced. }
  destruct (core_B64dec W (R input)) as [R|err].
  2: { returned Hret. intros _. surfaced. }
  destruct (core_B64dec W (S input)) as [S|err].
  2: { returned Hret. intros _. surfaced. }
  destruct (LookupHost _ _) as [err|].
  { returned Hret. intros _. surfaced. }
  destruct (tls_DialWithDialer W _ _) as [conn|err].
  2: { returned Hret. intros _. surfaced. }
  returned Hret. destruct (PeerCertificates conn) as [|leaf certs].
  { intros _. surfaced. }
  apply dvsni_names_surfaces.
Qed.

Lemma dns_txts_valid (challenge : Challenge) (txts : list string) (token : list byte) :
  Status (dns_txts challenge txts token).1 = StatusValid →
  Error (dns_txts challenge txts token).1 = Error challenge.
Proof.
  induction txts as [|t txts IH]; simpl; [done | ].
  by destruct (decide _).
Qed.

Lemma dvsni_names_valid (challenge : Challenge) (names : list string) (zName : string) :
  Status (dvsni_names challenge names zName).1 = StatusValid →
  Error (dvsni_names challenge names zName).1 = Error challenge.
Proof.
  induction names as [|n names IH]; simpl; [done | ].
  by destruct (decide _).
Qed.

(** A [valid] result of [validateDNS] or [validateDvsni] carries the
    error field of the input: none, for a challenge that had none. *)
Lemma validateDNS_valid_keeps_error (W : World) (va : ValidationAuthorityImpl)
    (identifier : AcmeIdentifier) (input : Challenge) (r : Challenge * option error) :
  outcome (validateDNS W va identifier input) = Returned r →
  Status r.1 = StatusValid → Error r.1 = Error input.
Proof.
  unfold validateDNS. intros Hret.
  destruct (decide (id_Type identifier ≠ IdentifierDNS)); [by returned Hret | ].
  destruct (LookupTXT _ _) as [txts [err|]]; [by returned Hret | ].
  returned Hret. apply dns_txts_valid.
Qed.

Lemma validateDvsni_valid_keeps_error (W : World) (va : ValidationAuthorityImpl)
    (identifier : AcmeIdentifier) (input : Challenge) (accountKey : JsonWebKey)
    (r : Challenge * option error) :
  outcome (validateDvsni W va identifier input accountKey) = Returned r →
  Status r.1 = StatusValid → Error r.1 = Error input.
Proof.
  unfold validateDvsni. intros Hret.
  destruct (decide (id_Type identifier ≠ "dns")); [by returned Hret | ].
  destruct (core_B64dec W (R input)) as [R|err]; [ | by returned Hret].
  destruct (core_B64dec W (S input)) as [S|err]; [ | by returned Hret].
  destruct (LookupHost _ _) as [err|]; [by returned Hret | ].
  destruct (tls_DialWithDialer W _ _) as [conn|err]; [ | by returned Hret].
  returned Hret. destruct (PeerCertificates conn) as [|leaf certs]; [done | ].
  apply dvsni_names_valid.
Qed.

(** ** The payload loop *)

Lemma payload_loop_swap (challenge : Challenge) (k1 k2 : string) (v1 v2 : JSON)
    (rest : list (string * JSON)) (p : Passed) :
  k1 ≠ k2 →
  payload_loop challenge ((k1, v1) :: (k2, v2) :: rest) p =
  payload_loop challenge ((k2, v2) :: (k1, v1) :: rest) p.
Proof.
  intros Hne. simpl. unfold payload_case.
  repeat (destruct (decide _) as [->|?]; simpl); done.
Qed.

(** The order in which the run time yields the entries of the map does
    not change what the loop computes. *)
Lemma payload_loop_perm (challenge : Challenge) (l l' : list (string * JSON)) :
  l ≡ₚ l' → NoDup l.*1 →
  ∀ p, payload_loop challenge l p = payload_loop challenge l' p.
Proof.
  induction 1 as [|[k v] l l' Hperm IH|[k1 v1] [k2 v2] l|l l' l'' H1 IH1 H2 IH2];
    intros Hnd p.
  - done.
  - simpl. apply NoDup_cons in Hnd as [_ Hnd].
    destruct (payload_case challenge k v p); [by apply IH | done].
  - apply payload_loop_swap. simpl in Hnd.
    apply NoDup_cons in Hnd as [Hin _]. rewrite not_elem_of_cons in Hin. tauto.
  - rewrite IH1 by done. apply IH2. by rewrite <- H1.
Qed.

Lemma payload_loop_sound (challenge : Challenge) (l : list (string * JSON)) :
  ∀ p0 p, payload_loop challenge l p0 = Some p →
    (∀ k v, (k, v) ∈ l → k ∈ ["type"; "token"; "path"; "tls"]) ∧
    (typePassed p = true →
       typePassed p0 = true ∨ ("type", JString ChallengeTypeSimpleHTTP) ∈ l) ∧
    (tokenPassed p = true →
       tokenPassed p0 = true ∨ ("token", JString (Token challenge)) ∈ l) ∧
    (pathPassed p = true →
       pathPassed p0 = true ∨ ("path", JString (Path challenge)) ∈ l) ∧
    (tlsPassed p = true →
       tlsPassed p0 = true ∨
       ("tls", JBool (match TLS challenge with Some b => b | None => false end)) ∈ l).
Proof.
  induction l as [|[k v] l IH]; intros p0 p Hloop; simpl in Hloop.
  - injection Hloop as <-. repeat split; auto. intros k v Hin. by apply elem_of_nil in Hin.
  - destruct (payload_case challenge k v p0) as [p'|] eqn:Hcase; [ | done].
    destruct (IH p' p Hloop) as (Hkeys & Htype & Htoken & Hpath & Htls).
    assert (Hk : k ∈ ["type"; "token"; "path"; "tls"]).
    { unfold payload_case in Hcase.
      repeat (destruct (decide _) as [->|?]; [apply list_elem_of_In; simpl; tauto | ]).
      done. }
    assert (Hhere : ∀ k' v', (k', v') ∈ (k, v) :: l → k' ∈ ["type"; "token"; "path"; "tls"]).
    { intros k' v' Hin. apply elem_of_cons in Hin as [[= -> ->]|Hin]; [done | by eapply Hkeys]. }
    unfold payload_case in Hcase.
    repeat case_decide; simplify_eq; simpl in *;
      (split; [exact Hhere | ]); repeat split; intros Hp;
      first [ destruct (Htype Hp) as [Hp'|Hin]
            | destruct (Htoken Hp) as [Hp'|Hin]
            | destruct (Hpath Hp) as [Hp'|Hin]
            | destruct (Htls Hp) as [Hp'|Hin] ];
      try (right; by apply list_elem_of_further);
      first [ by left
            | destruct v; try done; apply bool_decide_eq_true in Hp'; subst;
              right; apply list_elem_of_here ].
Qed.

Lemma accepted_payload_loop (challenge : Challenge) :
  size (accepted_payload challenge) = 4%nat ∧
  payload_loop challenge (map_to_list (accepted_payload challenge)) none_Passed =
    Some {| typePassed := true; tokenPassed := true; pathPassed := true; tlsPassed := true |}.
Proof.
  split; [vm_compute; reflexivity | ].
  assert (Hperm : map_to_list (accepted_payload challenge) ≡ₚ
            [("type", JString ChallengeTypeSimpleHTTP); ("token", JString (Token challenge));
             ("path", JString (Path challenge));
             ("tls", JBool (match TLS challenge with Some b => b | None => false end))]).
  { unfold accepted_payload.
    rewrite !map_to_list_insert by (vm_compute; reflexivity).
    by rewrite map_to_list_singleton. }
  rewrite (payload_loop_perm challenge _ _ Hperm) by apply NoDup_fst_map_to_list.
  simpl. unfold payload_case. simpl. by rewrite !bool_decide_eq_true_2.
Qed.

(** [checkPayload] returns without an error for exactly one decoded
    payload: the four entries [type], [token], [path] and [tls], the last
    compared with [challenge.TLS != nil && *challenge.TLS]. *)
Lemma checkPayload_accepts_iff (W : World) (challenge : Challenge) (payload : list byte)
    (m : gmap string JSON) :
  json_Unmarshal W payload = inl m →
  outcome (checkPayload W challenge payload) = Returned (set_Status StatusValid challenge, None)
  ↔ m = accepted_payload challenge.
Proof.
  intros Hm. unfold checkPayload. rewrite Hm. split.
  - intros Hret. destruct (decide (size m ≠ 4%nat)); [by returned Hret | ].
    destruct (payload_loop challenge (map_to_list m) none_Passed) as [p|] eqn:Hloop;
      [ | by returned Hret].
    destruct (payload_loop_sound challenge _ _ _ Hloop) as (Hkeys & Htype & Htoken & Hpath & Htls).
    destruct p as [[] [] [] []]; simpl in *; try by returned Hret.
    destruct Htype as [?|Htype]; [done.. | ].
    destruct Htoken as [?|Htoken]; [done.. | ].
    destruct Hpath as [?|Hpath]; [done.. | ].
    destruct Htls as [?|Htls]; [done.. | ].
    apply elem_of_map_to_list in Htype, Htoken, Hpath, Htls.
    apply map_eq. intros key. unfold accepted_payload.
    destruct (decide (key = "type")) as [->|?]; [by rewrite Htype | ].
    destruct (decide (key = "token")) as [->|?]; [by rewrite Htoken | ].
    destruct (decide (key = "path")) as [->|?]; [by rewrite Hpath | ].
    destruct (decide (key = "tls")) as [->|?]; [by rewrite Htls | ].
    rewrite !lookup_insert_ne, lookup_singleton_ne by done.
    destruct (m !! key) as [v|] eqn:Hkey; [ | done].
    apply elem_of_map_to_list, Hkeys, list_elem_of_In in Hkey. simpl in Hkey.
    intuition congruence.
  - intros ->. destruct (accepted_payload_loop challenge) as [Hsize Hloop].
    destruct (decide (size (accepted_payload challenge) ≠ 4%nat)) as [Hn|_];
      [exfalso; apply Hn; exact Hsize | ].
    rewrite Hloop. reflexivity.
Qed.

(** ** SimpleHTTP: what happens after the request is sent *)

(** Without a response, [fetch] panics on [httpResponse.StatusCode],
    whatever the transport error was. *)
Lemma fetch_without_response_panics (W : World) (challenge : Challenge)
    (accountKey : JsonWebKey) (url hostName : string) (err : option error) :
  http_Do W url hostName = (None, err) →
  outcome (fetch W challenge accountKey url hostName) =
    Panicked "invalid memory address or nil pointer dereference".
Proof.
  intros Hdo. unfold fetch. rewrite Hdo. by destruct err.
Qed.

(** A single signature by a key other than the account's makes
    [checkJWS] panic on [err.Error()]: [err] is nil there. *)
Lemma checkJWS_improper_key_panics (W : World) (challenge : Challenge)
    (accountKey : JsonWebKey) (body : string) (parsedJws : JsonWebSignature)
    (key : option JsonWebKey) :
  jose_ParseSigned W body = inl parsedJws →
  Signatures parsedJws = [key] →
  core_KeyDigestEquals W key accountKey = false →
  checkJWS W challenge accountKey body =
    ([], Panicked "invalid memory address or nil pointer dereference").
Proof.
  intros Hparse Hsig Hdigest. unfold checkJWS. rewrite Hparse, Hsig, Hdigest. simpl.
  destruct (decide (1 < 1)%nat) as [Hlt|_]; [lia | done].
Qed.

(** ** CAA: a record set that restricts nothing *)

Lemma CheckCAARecords_unrestrictive (W : World) (va : ValidationAuthorityImpl)
    (identifier : AcmeIdentifier) (t : list Event) (caaSet : CAASet) :
  getCAASet W va (strings_ToLower W (id_Value identifier)) =
    (t, Returned (Some caaSet, None)) →
  criticalUnknown caaSet = false →
  Issue caaSet = [] → Issuewild caaSet = [] →
  outcome (CheckCAARecords W va identifier) = Returned (false, false, None).
Proof.
  intros Hset Hcrit Hissue Hwild. unfold CheckCAARecords.
  rewrite (bind_returned _ _ _ _ Hset). simpl. rewrite Hcrit, Hissue, Hwild. simpl.
  destruct (decide (0 < 0 ∨ 0 < 0)%nat) as [[?|?]|_]; [lia.. | done].
Qed.

(** ** The claims that the code does not keep *)

(** C1: a failure of [validateSimpleHTTP] that does not surface on the
    challenge.  The server answers 200 with a body that is not a JWS: the
    validator returns an error and a challenge that is [invalid] but
    carries no problem. *)
Theorem C1_simpleHTTP_failure_without_problem :
  ∃ c e,
    outcome (validateSimpleHTTP Scenario.world_not_jws Scenario.va_quiet Scenario.d_example
               (Scenario.simpleHTTP (Some true)) Scenario.accountKey) = Returned (c, Some e) ∧
    failed (c, Some e) ∧
    Status c = StatusInvalid ∧ Error c = None ∧ ¬ surfaces_failure c.
Proof.
  eexists _, _. split; [vm_compute; reflexivity | ].
  split; [by left | ]. split; [reflexivity | ]. split; [reflexivity | ].
  intros (_ & t & Ht & _). discriminate.
Qed.

(** C2: a [valid] challenge with an error.  The server answers 404 and a
    body that is the expected JWS: the problem recorded for the status
    code stays on the challenge, and the validator goes on to the end and
    sets the status to [valid]. *)
Theorem C2_simpleHTTP_valid_with_problem :
  ∃ c,
    outcome (validateSimpleHTTP Scenario.world_404 Scenario.va_quiet Scenario.d_example
               (Scenario.simpleHTTP (Some true)) Scenario.accountKey) = Returned (c, None) ∧
    Status c = StatusValid ∧ problem_of c = Some UnauthorizedProblem.
Proof.
  eexists. split; [vm_compute; reflexivity | ]. split; reflexivity.
Qed.

(** C3: the GET fails with a transport error and no response.  The
    validator records the classified problem, does not return, and panics
    on [httpResponse.StatusCode]. *)
Theorem C3_simpleHTTP_transport_error_panics :
  parseHTTPConnError Scenario.refused = ConnectionProblem ∧
  outcome (validateSimpleHTTP Scenario.world_refused Scenario.va_quiet Scenario.d_example
             (Scenario.simpleHTTP (Some true)) Scenario.accountKey) =
    Panicked "invalid memory address or nil pointer dereference".
Proof.
  split; [reflexivity | vm_compute; reflexivity].
Qed.

(** C4: the challenge has no [tls] field and the payload says
    [tls = true]: the validator answers [invalid]; with [tls = false] in
    the payload it answers [valid]. *)
Theorem C4_simpleHTTP_absent_tls_is_false :
  (∃ c e,
     outcome (validateSimpleHTTP Scenario.world_S1 Scenario.va_quiet Scenario.d_example
                (Scenario.simpleHTTP None) Scenario.accountKey) = Returned (c, Some e) ∧
     Status c = StatusInvalid) ∧
  (∃ c,
     outcome (validateSimpleHTTP Scenario.world_tls_false Scenario.va_quiet Scenario.d_example
                (Scenario.simpleHTTP None) Scenario.accountKey) = Returned (c, None) ∧
     Status c = StatusValid).
Proof.
  split.
  - eexists _, _. split; [vm_compute; reflexivity | reflexivity].
  - eexists. split; [vm_compute; reflexivity | reflexivity].
Qed.

(** C5: scenario S3, a JWS signed by a key that is not the account's: the
    validator panics, so no challenge is returned. *)
Theorem C5_simpleHTTP_improper_key_panics :
  core_KeyDigestEquals Scenario.world_S3 (Some Scenario.otherKey) Scenario.accountKey = false ∧
  outcome (validateSimpleHTTP Scenario.world_S3 Scenario.va_quiet Scenario.d_example
             (Scenario.simpleHTTP (Some true)) Scenario.accountKey) =
    Panicked "invalid memory address or nil pointer dereference".
Proof.
  split; [reflexivity | vm_compute; reflexivity].
Qed.

(** C6: the one CAA record of the domain is an [iodef] record:
    [CheckCAARecords] returns [(present, valid) = (false, false)]. *)
Theorem C6_iodef_only_is_refused :
  CheckCAARecords Scenario.world_S1 (Scenario.va Scenario.iodef_only) Scenario.d_example =
    ([DNSLookupCAA "d.example" false], Returned (false, false, None)).
Proof. vm_compute. reflexivity. Qed.

(** ** The statements with hypotheses, at the scenarios *)


(** Scenario S5: the second TXT string is the token. *)
Lemma C8_validateDNS_witness :
  id_Type Scenario.d_example = IdentifierDNS ∧
  dns_queries (trace (validateDNS Scenario.world_S1 Scenario.va_S5 Scenario.d_example
                        Scenario.dns_challenge)) =
    [DNSLookupTXT "_acme-challenge.d.example"] ∧
  ∃ c e, outcome (validateDNS Scenario.world_S1 Scenario.va_S5 Scenario.d_example
                    Scenario.dns_challenge) = Returned (c, e) ∧
         Status c = StatusValid.
Proof.
  split; [reflexivity | ].
  destruct (C8_validateDNS Scenario.world_S1 Scenario.va_S5 Scenario.d_example
              Scenario.dns_challenge eq_refl)
    as (Hquery & c & e & Hret & _ & _ & Hok).
  split; [exact Hquery | ].
  exists c, e. split; [exact Hret | ].
  destruct (Hok eq_refl) as [Hvalid _]. apply Hvalid.
  apply list_elem_of_In. simpl. tauto.
Defined.

(** An authorization whose only challenge is of type
    [proofOfPossession]. *)
Lemma C9_unrecognized_type_witness :
  (index (Challenges (Scenario.authz [Scenario.proofOfPossession])) 0 =
     Some Scenario.proofOfPossession ∧
   Challenge_IsSane Scenario.world_S1 Scenario.proofOfPossession true = true ∧
   (Type_ Scenario.proofOfPossession ∉
      [ChallengeTypeSimpleHTTP; ChallengeTypeDVSNI; ChallengeTypeDNS])) ∧
  validate Scenario.world_S1 Scenario.va_quiet (Scenario.authz [Scenario.proofOfPossession])
      0 Scenario.accountKey =
    ([LogAuditObject "Validation result"
        {| ev_ID := "authz-1"; ev_Requester := 7;
           ev_Challenge := Scenario.proofOfPossession;
           ev_RequestTime := time_Now Scenario.world_S1;
           ev_ResponseTime := 0; ev_Error := "" |};
      LogNotice (Sprintf "Validations: %+v"
                   [AAuthorization (Scenario.authz [Scenario.proofOfPossession])]);
      OnValidationUpdate (Scenario.authz [Scenario.proofOfPossession])],
     Returned (Scenario.authz [Scenario.proofOfPossession])).
Proof.
  assert (Htype : Type_ Scenario.proofOfPossession ∉
                    [ChallengeTypeSimpleHTTP; ChallengeTypeDVSNI; ChallengeTypeDNS]).
  { rewrite list_elem_of_In. simpl. intros [H|[H|[H|[]]]]; discriminate. }
  split; [split; [reflexivity | split; [reflexivity | exact Htype]] | ].
  apply (C9_unrecognized_type Scenario.world_S1 Scenario.va_quiet
           (Scenario.authz [Scenario.proofOfPossession]) 0 Scenario.accountKey
           Scenario.proofOfPossession);
    solve [reflexivity | exact Htype].
Defined.

(** One challenge, index 1, and index -1. *)
Lemma C10_index_unchecked_witness :
  ¬ (0 ≤ 1 < Z.of_nat (length (Challenges (Scenario.authz [Scenario.dns_challenge])))) ∧
  (UpdateValidations Scenario.world_S1 Scenario.va_quiet
     (Scenario.authz [Scenario.dns_challenge]) 1 Scenario.accountKey).2 =
    ([], Panicked "index out of range") ∧
  ¬ (0 ≤ -1 < Z.of_nat (length (Challenges (Scenario.authz [Scenario.dns_challenge])))) ∧
  (UpdateValidations Scenario.world_S1 Scenario.va_quiet
     (Scenario.authz [Scenario.dns_challenge]) (-1) Scenario.accountKey).2 =
    ([], Panicked "index out of range").
Proof.
  assert (H1 : ¬ (0 ≤ 1 < Z.of_nat (length (Challenges (Scenario.authz [Scenario.dns_challenge])))))
    by (simpl; lia).
  assert (H2 : ¬ (0 ≤ -1 < Z.of_nat (length (Challenges (Scenario.authz [Scenario.dns_challenge])))))
    by (simpl; lia).
  split; [exact H1 | ]. split.
  - destruct (C10_index_unchecked Scenario.world_S1 Scenario.va_quiet
                (Scenario.authz [Scenario.dns_challenge]) 1 Scenario.accountKey)
      as (_ & _ & Hout & _).
    exact (Hout H1).
  - split; [exact H2 | ].
    destruct (C10_index_unchecked Scenario.world_S1 Scenario.va_quiet
                (Scenario.authz [Scenario.dns_challenge]) (-1) Scenario.accountKey)
      as (_ & _ & Hout & _).
    exact (Hout H2).
Defined.

(** * Further properties of the code *)

(** ** The classifier *)

(** X1: whatever the error, [parseHTTPConnError] answers [unknownHost],
    [tls] or [connection], and so never [dnssec]; a [*url.Error] is
    unwrapped no more than once. *)
Theorem X1_classifier_answers (err : error) :
  parseHTTPConnError err ∈ [UnknownHostProblem; TLSProblem; ConnectionProblem] ∧
  parseHTTPConnError err ≠ DNSSECProblem ∧
  ∀ msg msg', parseHTTPConnError (url_Error msg (url_Error msg' err)) = ConnectionProblem.
Proof.
  pose proof (parseHTTPConnError_range err) as Hrange.
  split; [exact Hrange | ]. split; [ | done].
  intros Heq. rewrite Heq in Hrange.
  apply list_elem_of_In in Hrange. simpl in Hrange.
  destruct Hrange as [H|[H|[H|[]]]]; discriminate.
Qed.

(** ** The verdicts of the DNS and DVSNI validators *)

Lemma dns_txts_verdict (challenge : Challenge) (txts : list string) (token : list byte) :
  (Status (dns_txts challenge txts token).1 = StatusValid ∧
   (dns_txts challenge txts token).2 = None ∧
   Error (dns_txts challenge txts token).1 = Error challenge) ∨
  (∃ pd, Status (dns_txts challenge txts token).1 = StatusInvalid ∧
         Error (dns_txts challenge txts token).1 = Some pd ∧
         (dns_txts challenge txts token).2 = Some (ProblemError pd) ∧
         pd_Type pd = UnauthorizedProblem).
Proof.
  induction txts as [|t txts IH]; simpl.
  - right. by eexists.
  - destruct (decide _); [by left | exact IH].
Qed.

Lemma dvsni_names_verdict (challenge : Challenge) (names : list string) (zName : string) :
  (Status (dvsni_names challenge names zName).1 = StatusValid ∧
   (dvsni_names challenge names zName).2 = None ∧
   Error (dvsni_names challenge names zName).1 = Error challenge) ∨
  (∃ pd, Status (dvsni_names challenge names zName).1 = StatusInvalid ∧
         Error (dvsni_names challenge names zName).1 = Some pd ∧
         (dvsni_names challenge names zName).2 = Some (ProblemError pd) ∧
         pd_Type pd = UnauthorizedProblem).
Proof.
  induction names as [|n names IH]; simpl.
  - right. by eexists.
  - destruct (decide _); [by left | exact IH].
Qed.

Ltac in_list := apply list_elem_of_In; simpl; tauto.

(** X2: [validateDNS] always returns.  Either the challenge is [valid],
    the companion error is nil and the error field is the input's; or the
    challenge is [invalid], its error field holds a problem of type
    [malformed], [dnssec], [serverInternal] or [unauthorized], and the
    companion error is that very problem. *)
Theorem X2_validateDNS_verdict (W : World) (va : ValidationAuthorityImpl)
    (identifier : AcmeIdentifier) (input : Challenge) :
  ∃ c e, outcome (validateDNS W va identifier input) = Returned (c, e) ∧
    ((Status c = StatusValid ∧ e = None ∧ Error c = Error input) ∨
     (∃ pd, Status c = StatusInvalid ∧ Error c = Some pd ∧ e = Some (ProblemError pd) ∧
            pd_Type pd ∈ [MalformedProblem; DNSSECProblem; ServerInternalProblem;
                          UnauthorizedProblem])).
Proof.
  unfold validateDNS.
  destruct (decide (id_Type identifier ≠ IdentifierDNS)).
  { eexists _, _. split; [reflexivity | ]. right. eexists. repeat split. in_list. }
  destruct (LookupTXT _ _) as [txts [err|]].
  { eexists _, _. split; [reflexivity | ]. right. eexists. repeat split.
    destruct err; in_list. }
  simpl. destruct (dns_txts_verdict input txts (bytes_of (Token input)))
    as [Hvalid|(pd & Hs & He & Hc & Ht)];
    destruct (dns_txts input txts (bytes_of (Token input))) as [c e]; simpl in *.
  - eexists _, _. split; [reflexivity | by left].
  - eexists _, _. split; [reflexivity | ]. right. exists pd. repeat split; try done.
    rewrite Ht. in_list.
Qed.

(** X4: [validateDvsni] always returns.  Either the challenge is [valid],
    the companion error is nil and the error field is the input's; or the
    challenge is [invalid], the companion error is not nil and the error
    field holds a problem of type [malformed], [dnssec], [serverInternal],
    [unknownHost], [tls], [connection] or [unauthorized]. *)
Theorem X4_validateDvsni_verdict (W : World) (va : ValidationAuthorityImpl)
    (identifier : AcmeIdentifier) (input : Challenge) (accountKey : JsonWebKey) :
  ∃ c e, outcome (validateDvsni W va identifier input accountKey) = Returned (c, e) ∧
    ((Status c = StatusValid ∧ e = None ∧ Error c = Error input) ∨
     (∃ pd, Status c = StatusInvalid ∧ Error c = Some pd ∧ e ≠ None ∧
            pd_Type pd ∈ problem_types)).
Proof.
  unfold validateDvsni.
  destruct (decide (id_Type identifier ≠ "dns")).
  { eexists _, _. split; [reflexivity | ]. right. eexists. repeat split; [done | in_list]. }
  destruct (core_B64dec W (R input)) as [r|err].
  2: { eexists _, _. split; [reflexivity | ]. right. eexists. repeat split; [done | in_list]. }
  destruct (core_B64dec W (S input)) as [s|err].
  2: { eexists _, _. split; [reflexivity | ]. right. eexists. repeat split; [done | in_list]. }
  destruct (LookupHost _ _) as [err|].
  { eexists _, _. split; [reflexivity | ]. right. eexists. repeat split; [done | ].
    apply lookup_problem_closed. }
  destruct (tls_DialWithDialer W _ _) as [conn|err].
  2: { eexists _, _. split; [reflexivity | ]. right. eexists. repeat split; [done | ].
       apply parseHTTPConnError_closed. }
  simpl. destruct (PeerCertificates conn) as [|leaf certs].
  { eexists _, _. split; [reflexivity | ]. right. eexists. repeat split; [done | in_list]. }
  match goal with |- context [dvsni_names ?c ?n ?z] =>
    destruct (dvsni_names_verdict c n z) as [Hvalid|(pd & Hs & He & Hc & Ht)];
    destruct (dvsni_names c n z) as [c' e']; simpl in *
  end.
  - eexists _, _. split; [reflexivity | by left].
  - eexists _, _. split; [reflexivity | ]. right. exists pd. repeat split; try done.
    + by rewrite Hc.
    + rewrite Ht. in_list.
Qed.

(** ** Input refused before any call leaves the process *)

Ltac unsent := split; [reflexivity | eexists _, _; repeat split; reflexivity].

(** X3: for an identifier whose type is not [dns], each of the three
    validators answers [invalid] with a [malformed] problem, returns that
    problem as its error, and has sent no lookup, request or dial. *)
Theorem X3_identifier_not_dns (W : World) (va : ValidationAuthorityImpl)
    (identifier : AcmeIdentifier) (input : Challenge) (accountKey : JsonWebKey) :
  id_Type identifier ≠ "dns" →
  rejected_unsent (validateSimpleHTTP W va identifier input accountKey) ∧
  rejected_unsent (validateDvsni W va identifier input accountKey) ∧
  rejected_unsent (validateDNS W va identifier input).
Proof.
  intros Htype. split; [ | split].
  - unfold validateSimpleHTTP.
    destruct (decide (String.length (Path input) = 0%nat)); [unsent | ].
    destruct (decide (id_Type identifier ≠ IdentifierDNS)); [unsent | done].
  - unfold validateDvsni.
    destruct (decide (id_Type identifier ≠ "dns")); [unsent | done].
  - unfold validateDNS.
    destruct (decide (id_Type identifier ≠ IdentifierDNS)); [unsent | done].
Qed.

(** X5: a SimpleHTTP challenge with an empty path is answered [invalid]
    with a [malformed] problem, whatever the identifier, and nothing is
    looked up or requested. *)
Theorem X5_simpleHTTP_empty_path (W : World) (va : ValidationAuthorityImpl)
    (identifier : AcmeIdentifier) (input : Challenge) (accountKey : JsonWebKey) :
  Path input = "" →
  rejected_unsent (validateSimpleHTTP W va identifier input accountKey).
Proof.
  intros Hpath. unfold validateSimpleHTTP. rewrite Hpath. simpl. unsent.
Qed.

(** ** DVSNI *)

(** X6: when [R] or [S] does not decode, [validateDvsni] answers
    [invalid] with a [malformed] problem and returns the decoding error;
    no lookup is made and no connection is dialled. *)
Theorem X6_dvsni_undecodable (W : World) (va : ValidationAuthorityImpl)
    (identifier : AcmeIdentifier) (input : Challenge) (accountKey : JsonWebKey)
    (err : error) :
  id_Type identifier = "dns" →
  core_B64dec W (R input) = inr err ∨
  ((∃ r, core_B64dec W (R input) = inl r) ∧ core_B64dec W (S input) = inr err) →
  network_events (trace (validateDvsni W va identifier input accountKey)) = [] ∧
  ∃ c, outcome (validateDvsni W va identifier input accountKey) = Returned (c, Some err) ∧
       Status c = StatusInvalid ∧ problem_of c = Some MalformedProblem.
Proof.
  intros Htype Hdec. unfold validateDvsni.
  destruct (decide (id_Type identifier ≠ "dns")); [done | ].
  destruct Hdec as [HR|[[r HR] HS]]; rewrite HR; [ | rewrite HS];
    (split; [reflexivity | eexists; repeat split; reflexivity]).
Qed.

(** X7: once the connection is up, [validateDvsni] answers [valid]
    exactly when the first certificate of the peer lists, among its DNS
    names, the 64 hexadecimal digits of SHA-256(R || S) followed by
    [.acme.invalid]; later certificates are not looked at. *)
Theorem X7_dvsni_valid_iff (W : World) (va : ValidationAuthorityImpl)
    (identifier : AcmeIdentifier) (input : Challenge) (accountKey : JsonWebKey)
    (r s : list byte) (conn : Conn) :
  id_Type identifier = "dns" →
  core_B64dec W (R input) = inl r →
  core_B64dec W (S input) = inl s →
  LookupHost (va_DNSResolver va) (id_Value identifier) = None →
  tls_DialWithDialer W (hostPort_of va identifier) (Nonce input +:+ ".acme.invalid") = inl conn →
  ∃ c e, outcome (validateDvsni W va identifier input accountKey) = Returned (c, e) ∧
    (Status c = StatusValid ↔
     ∃ leaf rest, PeerCertificates conn = leaf :: rest ∧ zName_of W r s ∈ DNSNames leaf).
Proof.
  intros Htype HR HS Hhost Hdial. unfold validateDvsni.
  destruct (decide (id_Type identifier ≠ "dns")); [done | ].
  rewrite HR, HS, Hhost. unfold hostPort_of in Hdial. rewrite Hdial. simpl.
  fold (zName_of W r s).
  destruct (PeerCertificates conn) as [|leaf certs].
  { eexists _, _. split; [reflexivity | ]. simpl. split; [done | ].
    intros (? & ? & ? & _). done. }
  destruct (decide (zName_of W r s ∈ DNSNames leaf)) as [Hin|Hin].
  - rewrite (dvsni_names_found input _ _ Hin). eexists _, _. split; [reflexivity | ].
    simpl. split; [ | done]. intros _. by exists leaf, certs.
  - rewrite (dvsni_names_missing input _ _ Hin). eexists _, _. split; [reflexivity | ].
    simpl. split; [done | ]. intros (leaf' & rest & [= <- <-] & Hin'). done.
Qed.

Ltac not_in :=
  let H := fresh in
  rewrite list_elem_of_In; simpl; intros H;
  repeat (destruct H as [H|H]; [discriminate | ]); exact H.

(** X8: a connection that [validateDvsni] has opened is closed before it
    returns, as the last thing it does; nothing is closed when the dial
    failed or was never made. *)
Theorem X8_dvsni_closes_what_it_opens (W : World) (va : ValidationAuthorityImpl)
    (identifier : AcmeIdentifier) (input : Challenge) (accountKey : JsonWebKey) :
  let t := trace (validateDvsni W va identifier input accountKey) in
  (ConnClose ∈ t ↔
   ∃ hostPort serverName conn,
     TLSDial hostPort serverName ∈ t ∧ tls_DialWithDialer W hostPort serverName = inl conn) ∧
  (ConnClose ∈ t → last t = Some ConnClose) ∧
  (length (List.filter is_close t) ≤ 1)%nat.
Proof.
  unfold validateDvsni.
  assert (Hno : ∀ t : list Event, ConnClose ∉ t →
            (∀ hp sn, TLSDial hp sn ∈ t → ∀ conn, tls_DialWithDialer W hp sn ≠ inl conn) →
            (ConnClose ∈ t ↔
             ∃ hostPort serverName conn,
               TLSDial hostPort serverName ∈ t ∧
               tls_DialWithDialer W hostPort serverName = inl conn) ∧
            (ConnClose ∈ t → last t = Some ConnClose)).
  { intros t Hc Hd. split; [ | done]. split; [done | ].
    intros (hp & sn & conn & Hin & Heq). by destruct (Hd hp sn Hin conn). }
  assert (Hquiet : ∀ m : Message,
            (ConnClose ∈ [LogDebug m] ↔
             ∃ hostPort serverName conn,
               TLSDial hostPort serverName ∈ [LogDebug m] ∧
               tls_DialWithDialer W hostPort serverName = inl conn) ∧
            (ConnClose ∈ [LogDebug m] → last [LogDebug m] = Some ConnClose)).
  { intros m. apply Hno; [not_in | ].
    intros hp sn Hin. exfalso. revert Hin. not_in. }
  destruct (decide (id_Type identifier ≠ "dns")).
  { simpl. edestruct Hquiet as [H1 H2]. split; [exact H1 | split; [exact H2 | simpl; lia]]. }
  destruct (core_B64dec W (R input)) as [r|err].
  2: { simpl. edestruct Hquiet as [H1 H2]. split; [exact H1 | split; [exact H2 | simpl; lia]]. }
  destruct (core_B64dec W (S input)) as [s|err].
  2: { simpl. edestruct Hquiet as [H1 H2]. split; [exact H1 | split; [exact H2 | simpl; lia]]. }
  destruct (LookupHost _ _) as [err|].
  { simpl. match goal with |- (_ ∈ ?t ↔ _) ∧ _ => destruct (Hno t) as [H1 H2] end.
    - not_in.
    - intros hp sn Hin. exfalso. revert Hin. not_in.
    - split; [exact H1 | split; [exact H2 | simpl; lia]]. }
  destruct (tls_DialWithDialer W _ _) as [conn|err] eqn:Hdial.
  - simpl. split; [ | split; [done | lia]].
    split; [ | intros _; in_list].
    intros _. eexists _, _, conn. split; [ | exact Hdial]. in_list.
  - simpl. match goal with |- (_ ∈ ?t ↔ _) ∧ _ => destruct (Hno t) as [H1 H2] end.
    + not_in.
    + intros hp sn Hin conn. apply list_elem_of_In in Hin. simpl in Hin.
      destruct Hin as [H|[H|[H|[H|[]]]]]; try discriminate.
      injection H as <- <-. by rewrite Hdial.
    + split; [exact H1 | split; [exact H2 | simpl; lia]].
Qed.

(** ** What a validator hands back, and what it leaves to the dispatcher *)

Ltac verdict_now :=
  unfold verdict, same_fields in *; simpl in *;
  intuition (first [discriminate | congruence | idtac]).

Ltac stage_end :=
  split; [reflexivity | ];
  let r := fresh "r" in let H := fresh "H" in
  intros r H; first [discriminate H | injection H as <-; verdict_now].

Lemma dns_txts_shape (input challenge : Challenge) (txts : list string) (token : list byte) :
  same_fields input challenge → verdict input (dns_txts challenge txts token).
Proof.
  intros Hsame. induction txts as [|t txts IH]; simpl; [verdict_now | ].
  destruct (decide _); [verdict_now | exact IH].
Qed.

Lemma dvsni_names_shape (input challenge : Challenge) (names : list string) (zName : string) :
  same_fields input challenge → verdict input (dvsni_names challenge names zName).
Proof.
  intros Hsame. induction names as [|n names IH]; simpl; [verdict_now | ].
  destruct (decide _); [verdict_now | exact IH].
Qed.

Lemma same_fields_refl (c : Challenge) : same_fields c c.
Proof. by repeat split. Qed.

Lemma checkPayload_shape (W : World) (input challenge : Challenge) (payload : list byte) :
  same_fields input challenge →
  reports (trace (checkPayload W challenge payload)) = [] ∧
  ∀ r, outcome (checkPayload W challenge payload) = Returned r → verdict input r.
Proof.
  intros Hsame. unfold checkPayload.
  destruct (json_Unmarshal W payload) as [m|err]; [ | stage_end].
  destruct (decide (size m ≠ 4%nat)); [stage_end | ].
  destruct (payload_loop challenge (map_to_list m) none_Passed) as [p|]; [ | stage_end].
  destruct (negb (typePassed p) || negb (tokenPassed p) || negb (pathPassed p)
            || negb (tlsPassed p)); stage_end.
Qed.

Lemma checkJWS_shape (W : World) (input challenge : Challenge) (accountKey : JsonWebKey)
    (body : string) :
  same_fields input challenge →
  reports (trace (checkJWS W challenge accountKey body)) = [] ∧
  ∀ r, outcome (checkJWS W challenge accountKey body) = Returned r → verdict input r.
Proof.
  intros Hsame. unfold checkJWS.
  destruct (jose_ParseSigned W body) as [jws|err]; [ | stage_end].
  destruct (decide (1 < length (Signatures jws))%nat); [stage_end | ].
  destruct (Signatures jws) as [|key sigs]; [stage_end | ].
  destruct (core_KeyDigestEquals W key accountKey); simpl; [ | stage_end].
  destruct (jose_Verify W jws key) as [payload|err]; [ | stage_end].
  by apply checkPayload_shape.
Qed.

Lemma bind_shape {A B : Type} (m : M A) (f : A → M B) (P : B → Prop) :
  reports (trace m) = [] →
  (∀ a, outcome m = Returned a →
        reports (trace (f a)) = [] ∧ ∀ b, outcome (f a) = Returned b → P b) →
  reports (trace (m ≫= f)) = [] ∧ ∀ b, outcome (m ≫= f) = Returned b → P b.
Proof.
  destruct m as [t [a|reason]]; unfold mbind, M_bind, trace, outcome, reports; simpl.
  - intros Ht Hf. destruct (Hf a eq_refl) as [Hr Hp]. split; [ | exact Hp].
    unfold reports, trace in Hr. by rewrite List.filter_app, Ht, Hr.
  - intros Ht _. split; [exact Ht | discriminate].
Qed.

Lemma fetch_shape (W : World) (input challenge : Challenge) (accountKey : JsonWebKey)
    (url hostName : string) :
  same_fields input challenge →
  reports (trace (fetch W challenge accountKey url hostName)) = [] ∧
  ∀ r, outcome (fetch W challenge accountKey url hostName) = Returned r → verdict input r.
Proof.
  intros Hsame. unfold fetch.
  apply bind_shape; [reflexivity | intros _ _].
  destruct (http_Do W url hostName) as [[response|] err].
  2: { destruct err; stage_end. }
  assert (Hrest : ∀ c, same_fields input c →
            reports (trace
              (match Body response with
               | inl body => checkJWS W c accountKey body
               | inr readErr => mret (set_Status StatusInvalid c, Some readErr)
               end)) = [] ∧
            ∀ r, outcome
              (match Body response with
               | inl body => checkJWS W c accountKey body
               | inr readErr => mret (set_Status StatusInvalid c, Some readErr)
               end) = Returned r → verdict input r).
  { intros c Hc. destruct (Body response); [by apply checkJWS_shape | stage_end]. }
  destruct err as [e|]; (apply bind_shape; [reflexivity | intros c Hc; injection Hc as <-]);
    destruct (decide (StatusCode response ≠ 200)); apply Hrest; verdict_now.
Qed.

Lemma validateSimpleHTTP_shape (W : World) (va : ValidationAuthorityImpl)
    (identifier : AcmeIdentifier) (input : Challenge) (accountKey : JsonWebKey) :
  reports (trace (validateSimpleHTTP W va identifier input accountKey)) = [] ∧
  ∀ r, outcome (validateSimpleHTTP W va identifier input accountKey) = Returned r →
       verdict input r.
Proof.
  unfold validateSimpleHTTP.
  destruct (decide (String.length (Path input) = 0%nat)); [stage_end | ].
  destruct (decide (id_Type identifier ≠ IdentifierDNS)); [stage_end | ].
  apply bind_shape; [reflexivity | intros _ _].
  destruct (LookupHost _ _) as [err|]; [stage_end | ].
  apply bind_shape; [reflexivity | intros _ _].
  destruct (http_NewRequest W _ _) as [err|]; [stage_end | ].
  apply fetch_shape, same_fields_refl.
Qed.

Lemma validateDvsni_shape (W : World) (va : ValidationAuthorityImpl)
    (identifier : AcmeIdentifier) (input : Challenge) (accountKey : JsonWebKey) :
  reports (trace (validateDvsni W va identifier input accountKey)) = [] ∧
  ∀ r, outcome (validateDvsni W va identifier input accountKey) = Returned r →
       verdict input r.
Proof.
  unfold validateDvsni.
  destruct (decide (id_Type identifier ≠ "dns")); [stage_end | ].
  destruct (core_B64dec W (R input)) as [r|err]; [ | stage_end].
  destruct (core_B64dec W (S input)) as [s|err]; [ | stage_end].
  destruct (LookupHost _ _) as [err|]; [stage_end | ].
  destruct (tls_DialWithDialer W _ _) as [conn|err]; [ | stage_end].
  split; [reflexivity | ]. intros r' Hret. returned Hret.
  destruct (PeerCertificates conn) as [|leaf certs]; [verdict_now | ].
  apply dvsni_names_shape, same_fields_refl.
Qed.

Lemma validateDNS_shape (W : World) (va : ValidationAuthorityImpl)
    (identifier : AcmeIdentifier) (input : Challenge) :
  reports (trace (validateDNS W va identifier input)) = [] ∧
  ∀ r, outcome (validateDNS W va identifier input) = Returned r → verdict input r.
Proof.
  unfold validateDNS.
  destruct (decide (id_Type identifier ≠ IdentifierDNS)); [stage_end | ].
  destruct (LookupTXT _ _) as [txts [err|]]; [stage_end | ].
  split; [reflexivity | ]. intros r' Hret. returned Hret.
  apply dns_txts_shape, same_fields_refl.
Qed.

(** X9: when one of the three validators returns, the challenge it
    returns is its input with, at most, another status and error; the
    status is [valid] or [invalid], never the one it came with otherwise;
    and the companion error is nil exactly when the status is [valid]. *)
Theorem X9_validator_results (W : World) (va : ValidationAuthorityImpl)
    (identifier : AcmeIdentifier) (input : Challenge) (accountKey : JsonWebKey) :
  (∀ r, outcome (validateSimpleHTTP W va identifier input accountKey) = Returned r →
        verdict input r) ∧
  (∀ r, outcome (validateDvsni W va identifier input accountKey) = Returned r →
        verdict input r) ∧
  (∀ r, outcome (validateDNS W va identifier input) = Returned r → verdict input r).
Proof.
  split; [apply validateSimpleHTTP_shape | ].
  split; [apply validateDvsni_shape | apply validateDNS_shape].
Qed.

(** Scenario S1, a DVSNI run against [conn_S4], scenario S5. *)
Lemma X9_validator_results_witness :
  verdict (Scenario.simpleHTTP (Some true))
    (set_Status StatusValid (Scenario.simpleHTTP (Some true)), None) ∧
  verdict Scenario.dvsni_challenge (set_Status StatusValid Scenario.dvsni_challenge, None) ∧
  verdict Scenario.dns_challenge (set_Status StatusValid Scenario.dns_challenge, None).
Proof.
  split; [ | split].
  - destruct (X9_validator_results Scenario.world_S1 Scenario.va_quiet Scenario.d_example
                (Scenario.simpleHTTP (Some true)) Scenario.accountKey) as (H & _ & _).
    apply H. vm_compute. reflexivity.
  - destruct (X9_validator_results Scenario.world_S4 Scenario.va_quiet Scenario.d_example
                Scenario.dvsni_challenge Scenario.accountKey) as (_ & H & _).
    apply H. vm_compute. reflexivity.
  - destruct (X9_validator_results Scenario.world_S1 Scenario.va_S5 Scenario.d_example
                Scenario.dns_challenge Scenario.accountKey) as (_ & _ & H).
    apply H. vm_compute. reflexivity.
Defined.

(** ** The dispatcher, run by run *)

Lemma index_store (cs : list Challenge) (challengeIndex : Z) (old c : Challenge) :
  index cs challengeIndex = Some old → index (store cs challengeIndex c) challengeIndex = Some c.
Proof.
  unfold index, store. destruct (decide (challengeIndex < 0)); [done | ].
  intros Hold. apply list_lookup_insert_eq. by eapply lookup_lt_Some.
Qed.

Lemma reports_app (t t' : list Event) : reports (t ++ t') = (reports t ++ reports t')%list.
Proof. apply List.filter_app. Qed.

(** The runs of [validate]: the index is out of range; a validator
    panics; or the audit object, the notice and the call on the
    Registration Authority end the run. *)
Lemma validate_cases (W : World) (va : ValidationAuthorityImpl)
    (authz : Authorization) (challengeIndex : Z) (accountKey : JsonWebKey) :
  (index (Challenges authz) challengeIndex = None ∧
   validate W va authz challengeIndex accountKey = ([], Panicked "index out of range")) ∨
  (∃ selected, index (Challenges authz) challengeIndex = Some selected ∧
     ((∃ t reason, validate W va authz challengeIndex accountKey = (t, Panicked reason) ∧
                   reports t = []) ∨
      (∃ t ev authz',
         validate W va authz challengeIndex accountKey =
           ((t ++ [LogAuditObject "Validation result" ev;
                   LogNotice (Sprintf "Validations: %+v" [AAuthorization authz']);
                   OnValidationUpdate authz'])%list,
            Returned authz') ∧
         reports t = [] ∧
         ev_ID ev = ID authz ∧ ev_Requester ev = RegistrationID authz ∧
         ev_RequestTime ev = time_Now W ∧
         ((authz' = authz ∧ ev_Challenge ev = selected) ∨
          (∃ c, same_fields selected c ∧
                (Status c = StatusValid ∨ Status c = StatusInvalid) ∧
                authz' = set_Challenges (store (Challenges authz) challengeIndex c) authz ∧
                ev_Challenge ev = c))))).
Proof.
  unfold validate.
  destruct (index (Challenges authz) challengeIndex) as [selected|] eqn:Hidx; [ | by left].
  right. exists selected. split; [done | ].
  destruct (Challenge_IsSane W selected true); simpl.
  2: { right. eexists [], _, _. split; [reflexivity | ].
       do 4 (split; [reflexivity | ]). right.
       exists (set_Error (Some {| pd_Type := MalformedProblem;
                                  pd_Detail := "Challenge failed sanity check." |})
                 (set_Status StatusInvalid selected)).
       split; [by repeat split | ]. split; [by right | ]. split; reflexivity. }
  assert (Hval : ∀ m : M (Challenge * option error),
            (reports (trace m) = [] ∧ ∀ r, outcome m = Returned r → verdict selected r) →
            let run :=
              ('(authz0, err) ←
                 ('(c, err) ← m;
                  mret (set_Challenges (store (Challenges authz) challengeIndex c) authz, err));
               match index (Challenges authz0) challengeIndex with
               | None => panic "index out of range"
               | Some current =>
                   mret (authz0,
                         match err with
                         | Some e =>
                             set_ev_Error (Error_of W e)
                               (set_ev_Challenge current
                                  {| ev_ID := ID authz; ev_Requester := RegistrationID authz;
                                     ev_Challenge := zero_Challenge;
                                     ev_RequestTime := time_Now W;
                                     ev_ResponseTime := 0; ev_Error := "" |})
                         | None =>
                             set_ev_Challenge current
                               {| ev_ID := ID authz; ev_Requester := RegistrationID authz;
                                  ev_Challenge := zero_Challenge;
                                  ev_RequestTime := time_Now W;
                                  ev_ResponseTime := 0; ev_Error := "" |}
                         end)
               end) in
            (∃ reason, outcome run = Panicked reason ∧ reports (trace run) = []) ∨
            (∃ c ev, outcome run =
                       Returned (set_Challenges (store (Challenges authz) challengeIndex c) authz,
                                 ev) ∧
                     reports (trace run) = [] ∧ same_fields selected c ∧
                     (Status c = StatusValid ∨ Status c = StatusInvalid) ∧
                     ev_ID ev = ID authz ∧ ev_Requester ev = RegistrationID authz ∧
                     ev_RequestTime ev = time_Now W ∧ ev_Challenge ev = c)).
  { intros [t [[c e]|reason]] [Ht Hv]; unfold mbind, M_bind, trace, outcome in *; simpl in *.
    - right. destruct (Hv _ eq_refl) as (Hsame & _ & Hstatus). simpl in *.
      rewrite (index_store _ _ _ c Hidx). simpl.
      exists c. eexists. split; [reflexivity | ].
      rewrite !app_nil_r. split; [exact Ht | ].
      split; [exact Hsame | ]. split; [exact Hstatus | ]. by destruct e.
    - left. eexists. split; [reflexivity | exact Ht]. }
  assert (Hfin : ∀ run : M (Authorization * verificationRequestEvent),
            ((∃ reason, outcome run = Panicked reason ∧ reports (trace run) = []) ∨
             (∃ c ev, outcome run =
                        Returned (set_Challenges (store (Challenges authz) challengeIndex c) authz,
                                  ev) ∧
                      reports (trace run) = [] ∧ same_fields selected c ∧
                      (Status c = StatusValid ∨ Status c = StatusInvalid) ∧
                      ev_ID ev = ID authz ∧ ev_Requester ev = RegistrationID authz ∧
                      ev_RequestTime ev = time_Now W ∧ ev_Challenge ev = c)) →
            let whole :=
              ('(authz0, logEvent) ← run;
               emit (LogAuditObject "Validation result" logEvent);;
               log_Notice (Sprintf "Validations: %+v" [AAuthorization authz0]);;
               emit (OnValidationUpdate authz0);;
               mret authz0) in
            (∃ t reason, whole = (t, Panicked reason) ∧ reports t = []) ∨
            (∃ t ev authz',
               whole =
                 ((t ++ [LogAuditObject "Validation result" ev;
                         LogNotice (Sprintf "Validations: %+v" [AAuthorization authz']);
                         OnValidationUpdate authz'])%list,
                  Returned authz') ∧
               reports t = [] ∧
               ev_ID ev = ID authz ∧ ev_Requester ev = RegistrationID authz ∧
               ev_RequestTime ev = time_Now W ∧
               ((authz' = authz ∧ ev_Challenge ev = selected) ∨
                (∃ c, same_fields selected c ∧
                      (Status c = StatusValid ∨ Status c = StatusInvalid) ∧
                      authz' = set_Challenges (store (Challenges authz) challengeIndex c) authz ∧
                      ev_Challenge ev = c)))).
  { intros [t [[a ev]|reason]]; unfold mbind, M_bind, trace, outcome; simpl.
    - intros [(reason & Hp & _)|(c & ev' & Hret & Ht & Hsame & Hst & H1 & H2 & H3 & H4)];
        [discriminate | ].
      injection Hret as -> ->. right. exists t. eexists _, _. split; [reflexivity | ].
      split; [exact Ht | ]. repeat split; try done. right. by exists c.
    - intros [(reason' & _ & Ht)|(c & ev' & Hret & _)]; [ | discriminate].
      left. by eexists _, _. }
  destruct (decide (Type_ selected = ChallengeTypeSimpleHTTP)).
  { apply Hfin, Hval, validateSimpleHTTP_shape. }
  destruct (decide (Type_ selected = ChallengeTypeDVSNI)).
  { apply Hfin, Hval, validateDvsni_shape. }
  destruct (decide (Type_ selected = ChallengeTypeDNS)).
  { apply Hfin, Hval, validateDNS_shape. }
  unfold mbind, M_bind. simpl. rewrite Hidx. simpl.
  right. eexists [], _, _. split; [reflexivity | ]. repeat split. by left.
Qed.

(** X10: a challenge that fails the sanity check is marked [invalid]
    with a [malformed] problem in its place in the authorization, and the
    whole run is the audit object (with the marked challenge and the
    problem's detail), the notice and the call on the Registration
    Authority: no validator runs and nothing is looked up or sent. *)
Theorem X10_validate_insane (W : World) (va : ValidationAuthorityImpl)
    (authz : Authorization) (challengeIndex : Z) (accountKey : JsonWebKey)
    (selected : Challenge) :
  index (Challenges authz) challengeIndex = Some selected →
  Challenge_IsSane W selected true = false →
  let chall := set_Error (Some {| pd_Type := MalformedProblem;
                                  pd_Detail := "Challenge failed sanity check." |})
                 (set_Status StatusInvalid selected) in
  let authz' := set_Challenges (store (Challenges authz) challengeIndex chall) authz in
  validate W va authz challengeIndex accountKey =
    ([LogAuditObject "Validation result"
        {| ev_ID := ID authz; ev_Requester := RegistrationID authz;
           ev_Challenge := chall; ev_RequestTime := time_Now W;
           ev_ResponseTime := 0; ev_Error := "Challenge failed sanity check." |};
      LogNotice (Sprintf "Validations: %+v" [AAuthorization authz']);
      OnValidationUpdate authz'],
     Returned authz') ∧
  index (Challenges authz') challengeIndex = Some chall.
Proof.
  intros Hidx Hsane. simpl. split.
  - unfold validate. rewrite Hidx, Hsane. reflexivity.
  - by apply (index_store _ _ selected).
Qed.

Lemma X10_validate_insane_witness :
  (index (Challenges (Scenario.authz [Scenario.dns_challenge; Scenario.tokenless])) 1 =
     Some Scenario.tokenless ∧
   Challenge_IsSane Scenario.world_S1 Scenario.tokenless true = false) ∧
  trace (validate Scenario.world_S1 Scenario.va_S5
           (Scenario.authz [Scenario.dns_challenge; Scenario.tokenless]) 1
           Scenario.accountKey) =
    [LogAuditObject "Validation result"
       {| ev_ID := "authz-1"; ev_Requester := 7;
          ev_Challenge :=
            set_Error (Some {| pd_Type := MalformedProblem;
                               pd_Detail := "Challenge failed sanity check." |})
              (set_Status StatusInvalid Scenario.tokenless);
          ev_RequestTime := time_Now Scenario.world_S1;
          ev_ResponseTime := 0; ev_Error := "Challenge failed sanity check." |};
     LogNotice (Sprintf "Validations: %+v"
                  [AAuthorization
                     (Scenario.authz
                        [Scenario.dns_challenge;
                         set_Error (Some {| pd_Type := MalformedProblem;
                                            pd_Detail := "Challenge failed sanity check." |})
                           (set_Status StatusInvalid Scenario.tokenless)])]);
     OnValidationUpdate
       (Scenario.authz
          [Scenario.dns_challenge;
           set_Error (Some {| pd_Type := MalformedProblem;
                              pd_Detail := "Challenge failed sanity check." |})
             (set_Status StatusInvalid Scenario.tokenless)])].
Proof.
  split; [split; reflexivity | ].
  destruct (X10_validate_insane Scenario.world_S1 Scenario.va_S5
              (Scenario.authz [Scenario.dns_challenge; Scenario.tokenless]) 1
              Scenario.accountKey Scenario.tokenless eq_refl eq_refl) as [Hrun _].
  rewrite Hrun. reflexivity.
Defined.

(** X11: a run of [validate] that returns leaves the authorization as it
    was but for the challenge at [challengeIndex]: the id, the
    registration and the identifier are the same, there are as many
    challenges, every challenge at another index is untouched, and the one
    at [challengeIndex] differs at most in status and error. *)
Theorem X11_validate_frame (W : World) (va : ValidationAuthorityImpl)
    (authz authz' : Authorization) (challengeIndex : Z) (accountKey : JsonWebKey) :
  outcome (validate W va authz challengeIndex accountKey) = Returned authz' →
  ID authz' = ID authz ∧ RegistrationID authz' = RegistrationID authz ∧
  Identifier authz' = Identifier authz ∧
  length (Challenges authz') = length (Challenges authz) ∧
  (∀ j : nat, j ≠ Z.to_nat challengeIndex →
     Challenges authz' !! j = Challenges authz !! j) ∧
  ∃ before after,
    index (Challenges authz) challengeIndex = Some before ∧
    index (Challenges authz') challengeIndex = Some after ∧
    same_fields before after.
Proof.
  intros Hret.
  destruct (validate_cases W va authz challengeIndex accountKey)
    as [[_ Hrun]|(selected & Hidx & [(t & reason & Hrun & _)|(t & ev & a & Hrun & _ & _ & _ & _ & Hwhat)])];
    rewrite Hrun in Hret; try discriminate.
  injection Hret as ->.
  destruct Hwhat as [[-> _]|(c & Hsame & _ & -> & _)].
  - repeat split; try done. exists selected, selected. by repeat split.
  - simpl. repeat split.
    + apply length_insert.
    + intros j Hj. unfold store. by apply list_lookup_insert_ne.
    + exists selected, c. split; [done | ]. split; [ | done].
      by apply (index_store _ _ selected).
Qed.

(** Scenario S5 as the second of two challenges. *)
Lemma X11_validate_frame_witness :
  outcome (validate Scenario.world_S1 Scenario.va_S5
             (Scenario.authz [Scenario.proofOfPossession; Scenario.dns_challenge]) 1
             Scenario.accountKey) =
    Returned (Scenario.authz [Scenario.proofOfPossession;
                              set_Status StatusValid Scenario.dns_challenge]) ∧
  (∀ j : nat, j ≠ Z.to_nat 1 →
     Challenges (Scenario.authz [Scenario.proofOfPossession;
                                 set_Status StatusValid Scenario.dns_challenge]) !! j =
     Challenges (Scenario.authz [Scenario.proofOfPossession; Scenario.dns_challenge]) !! j).
Proof.
  assert (Hrun : outcome (validate Scenario.world_S1 Scenario.va_S5
                    (Scenario.authz [Scenario.proofOfPossession; Scenario.dns_challenge]) 1
                    Scenario.accountKey) =
                 Returned (Scenario.authz [Scenario.proofOfPossession;
                                           set_Status StatusValid Scenario.dns_challenge]))
    by (vm_compute; reflexivity).
  split; [exact Hrun | ].
  apply (X11_validate_frame _ _ _ _ _ _ Hrun).
Defined.

(** X12: a run of [validate] that returns has emitted one audit object
    and made one call on the Registration Authority, in this order, the
    call being the last thing it did; the call carries the authorization
    the body ends with, and the audit object its challenge at
    [challengeIndex] with the id and registration of the authorization and
    the time at which the body started. *)
Theorem X12_validate_reports_once (W : World) (va : ValidationAuthorityImpl)
    (authz authz' : Authorization) (challengeIndex : Z) (accountKey : JsonWebKey) :
  outcome (validate W va authz challengeIndex accountKey) = Returned authz' →
  ∃ ev,
    reports (trace (validate W va authz challengeIndex accountKey)) =
      [LogAuditObject "Validation result" ev; OnValidationUpdate authz'] ∧
    last (trace (validate W va authz challengeIndex accountKey)) =
      Some (OnValidationUpdate authz') ∧
    ev_ID ev = ID authz ∧ ev_Requester ev = RegistrationID authz ∧
    ev_RequestTime ev = time_Now W ∧
    index (Challenges authz') challengeIndex = Some (ev_Challenge ev).
Proof.
  intros Hret.
  destruct (validate_cases W va authz challengeIndex accountKey)
    as [[_ Hrun]|(selected & Hidx & [(t & reason & Hrun & _)|(t & ev & a & Hrun & Ht & H1 & H2 & H3 & Hwhat)])];
    rewrite Hrun in Hret |- *; try discriminate.
  injection Hret as ->. exists ev. unfold trace. simpl.
  rewrite reports_app, Ht. split; [reflexivity | ].
  split; [by rewrite last_app | ].
  do 3 (split; [done | ]).
  destruct Hwhat as [[-> ->]|(c & _ & _ & -> & ->)]; [done | ].
  by apply (index_store _ _ selected).
Qed.

Lemma X12_validate_reports_once_witness :
  outcome (validate Scenario.world_S1 Scenario.va_S5
             (Scenario.authz [Scenario.proofOfPossession; Scenario.dns_challenge]) 1
             Scenario.accountKey) =
    Returned (Scenario.authz [Scenario.proofOfPossession;
                              set_Status StatusValid Scenario.dns_challenge]) ∧
  ∃ ev,
    reports (trace (validate Scenario.world_S1 Scenario.va_S5
                      (Scenario.authz [Scenario.proofOfPossession; Scenario.dns_challenge]) 1
                      Scenario.accountKey)) =
      [LogAuditObject "Validation result" ev;
       OnValidationUpdate (Scenario.authz [Scenario.proofOfPossession;
                                           set_Status StatusValid Scenario.dns_challenge])].
Proof.
  assert (Hrun : outcome (validate Scenario.world_S1 Scenario.va_S5
                    (Scenario.authz [Scenario.proofOfPossession; Scenario.dns_challenge]) 1
                    Scenario.accountKey) =
                 Returned (Scenario.authz [Scenario.proofOfPossession;
                                           set_Status StatusValid Scenario.dns_challenge]))
    by (vm_compute; reflexivity).
  split; [exact Hrun | ].
  destruct (X12_validate_reports_once _ _ _ _ _ _ Hrun) as (ev & Hreports & _).
  exists ev. exact Hreports.
Defined.

(** X13: a run of [validate] that panics, be it on the index or inside a
    validator, has emitted no audit object and has not called the
    Registration Authority. *)
Theorem X13_validate_panic_unreported (W : World) (va : ValidationAuthorityImpl)
    (authz : Authorization) (challengeIndex : Z) (accountKey : JsonWebKey)
    (reason : string) :
  outcome (validate W va authz challengeIndex accountKey) = Panicked reason →
  reports (trace (validate W va authz challengeIndex accountKey)) = [].
Proof.
  intros Hret.
  destruct (validate_cases W va authz challengeIndex accountKey)
    as [[_ Hrun]|(selected & Hidx & [(t & reason' & Hrun & Ht)|(t & ev & a & Hrun & _)])];
    rewrite Hrun in Hret |- *; try discriminate; done.
Qed.

(** Scenario S3 under the dispatcher. *)
Lemma X13_validate_panic_unreported_witness :
  outcome (validate Scenario.world_S3 Scenario.va_quiet
             (Scenario.authz [Scenario.simpleHTTP (Some true)]) 0 Scenario.accountKey) =
    Panicked "invalid memory address or nil pointer dereference" ∧
  reports (trace (validate Scenario.world_S3 Scenario.va_quiet
                    (Scenario.authz [Scenario.simpleHTTP (Some true)]) 0
                    Scenario.accountKey)) = [].
Proof.
  assert (Hrun : outcome (validate Scenario.world_S3 Scenario.va_quiet
                    (Scenario.authz [Scenario.simpleHTTP (Some true)]) 0
                    Scenario.accountKey) =
                 Panicked "invalid memory address or nil pointer dereference")
    by (vm_compute; reflexivity).
  split; [exact Hrun | ].
  apply (X13_validate_panic_unreported _ _ _ _ _ _ Hrun).
Defined.

(** ** SimpleHTTP: the request and the payload *)

Lemma filter_bind {A B : Type} (f : Event → bool) (m : M A) (k : A → M B) :
  List.filter f (trace (m ≫= k)) =
    (List.filter f (trace m) ++
     match outcome m with
     | Returned a => List.filter f (trace (k a))
     | Panicked _ => []
     end)%list.
Proof.
  destruct m as [t [a|reason]]; unfold mbind, M_bind, trace, outcome; simpl.
  - apply List.filter_app.
  - by rewrite app_nil_r.
Qed.

Lemma checkPayload_debug_only (W : World) (challenge : Challenge) (payload : list byte)
    (f : Event → bool) :
  (∀ m, f (LogDebug m) = false) →
  List.filter f (trace (checkPayload W challenge payload)) = [].
Proof.
  intros Hf. unfold checkPayload.
  destruct (json_Unmarshal W payload) as [m|err]; [ | by simpl; rewrite !Hf].
  destruct (decide (size m ≠ 4%nat)); [by simpl; rewrite !Hf | ].
  destruct (payload_loop challenge (map_to_list m) none_Passed) as [p|];
    [ | by simpl; rewrite !Hf].
  destruct (negb (typePassed p) || negb (tokenPassed p) || negb (pathPassed p)
            || negb (tlsPassed p)); by simpl; rewrite !Hf.
Qed.

Lemma checkJWS_debug_only (W : World) (challenge : Challenge) (accountKey : JsonWebKey)
    (body : string) (f : Event → bool) :
  (∀ m, f (LogDebug m) = false) →
  List.filter f (trace (checkJWS W challenge accountKey body)) = [].
Proof.
  intros Hf. unfold checkJWS.
  destruct (jose_ParseSigned W body) as [jws|err]; [ | by simpl; rewrite !Hf].
  destruct (decide (1 < length (Signatures jws))%nat); [by simpl; rewrite !Hf | ].
  destruct (Signatures jws) as [|key sigs]; [by simpl; rewrite !Hf | ].
  destruct (core_KeyDigestEquals W key accountKey); simpl; [ | done].
  destruct (jose_Verify W jws key) as [payload|err]; [ | by simpl; rewrite !Hf].
  by apply checkPayload_debug_only.
Qed.

Lemma fetch_network (W : World) (challenge : Challenge) (accountKey : JsonWebKey)
    (url hostName : string) :
  network_events (trace (fetch W challenge accountKey url hostName)) = [HTTPDo url hostName].
Proof.
  unfold network_events, fetch. rewrite filter_bind. simpl.
  destruct (http_Do W url hostName) as [[response|] err].
  2: { by destruct err. }
  destruct err as [e|]; rewrite filter_bind; simpl;
    destruct (Body response); simpl; try done;
    by rewrite checkJWS_debug_only.
Qed.

(** X14: past its two input checks and the host lookup,
    [validateSimpleHTTP] makes one request and no other call: a GET for
    [{scheme}://{host}/.well-known/acme-challenge/{path}], where the scheme
    is [http] only if the challenge says [tls = false] and the host is the
    identifier; in test mode the scheme is [http] and both the target and
    the [Host] header are [localhost:5001].  When the URL is refused by
    [http.NewRequest] nothing is sent. *)
Theorem X14_simpleHTTP_request (W : World) (va : ValidationAuthorityImpl)
    (identifier : AcmeIdentifier) (input : Challenge) (accountKey : JsonWebKey) :
  Path input ≠ "" → id_Type identifier = "dns" →
  LookupHost (va_DNSResolver va) (id_Value identifier) = None →
  let scheme := if TestMode va then "http"
                else match TLS input with Some false => "http" | _ => "https" end in
  let hostName := if TestMode va then "localhost:5001" else id_Value identifier in
  let url := scheme +:+ "://" +:+ hostName +:+ "/.well-known/acme-challenge/" +:+ Path input in
  network_events (trace (validateSimpleHTTP W va identifier input accountKey)) =
    DNSLookupHost (id_Value identifier) ::
    match http_NewRequest W "GET" url with
    | None => [HTTPDo url hostName]
    | Some _ => []
    end.
Proof.
  intros Hpath Htype Hhost scheme hostName url. unfold validateSimpleHTTP.
  destruct (decide (String.length (Path input) = 0%nat)) as [Hlen|_].
  { by destruct (Path input). }
  destruct (decide (id_Type identifier ≠ IdentifierDNS)); [done | ].
  unfold network_events. rewrite filter_bind, Hhost. simpl. f_equal.
  assert (Hurl : (if TestMode va then "http"
                  else match TLS input with
                       | Some b => if b then "https" else "http"
                       | None => "https"
                       end) +:+ "://" +:+
                 (if TestMode va then "localhost:5001" else id_Value identifier) +:+
                 "/.well-known/acme-challenge/" +:+ Path input = url).
  { subst url scheme hostName. by destruct (TestMode va), (TLS input) as [[]|]. }
  rewrite Hurl. fold hostName. destruct (http_NewRequest W "GET" url); [done | ].
  apply fetch_network.
Qed.

Lemma checkPayload_nil_error (W : World) (challenge c : Challenge) (payload : list byte) :
  outcome (checkPayload W challenge payload) = Returned (c, None) →
  c = set_Status StatusValid challenge.
Proof.
  unfold checkPayload.
  destruct (json_Unmarshal W payload) as [m|err]; [ | by intros H; returned H].
  destruct (decide (size m ≠ 4%nat)); [by intros H; returned H | ].
  destruct (payload_loop challenge (map_to_list m) none_Passed) as [p|];
    [ | by intros H; returned H].
  destruct (negb (typePassed p) || negb (tokenPassed p) || negb (pathPassed p)
            || negb (tlsPassed p)); intros H; returned H; done.
Qed.

(** X15: when the response has a body that parses as a JWS with one
    signature, by a key with the digest of the account key, and the
    signature verifies, [validateSimpleHTTP] returns without error, and
    [valid], exactly when the payload decodes to the object with the four
    entries [type = "simpleHttp"], [token = challenge.Token],
    [path = challenge.Path] and [tls = (challenge.TLS != nil &&
    *challenge.TLS)]; the status code of the response has no part in
    this. *)
Theorem X15_simpleHTTP_accepts_iff (W : World) (va : ValidationAuthorityImpl)
    (identifier : AcmeIdentifier) (input : Challenge) (accountKey : JsonWebKey)
    (response : Response) (body : string) (jws : JsonWebSignature)
    (key : option JsonWebKey) (payload : list byte) (m : gmap string JSON) :
  let scheme := if TestMode va then "http"
                else match TLS input with Some false => "http" | _ => "https" end in
  let hostName := if TestMode va then "localhost:5001" else id_Value identifier in
  let url := scheme +:+ "://" +:+ hostName +:+ "/.well-known/acme-challenge/" +:+ Path input in
  Path input ≠ "" → id_Type identifier = "dns" →
  LookupHost (va_DNSResolver va) (id_Value identifier) = None →
  http_NewRequest W "GET" url = None →
  http_Do W url hostName = (Some response, None) →
  Body response = inl body →
  jose_ParseSigned W body = inl jws →
  Signatures jws = [key] →
  core_KeyDigestEquals W key accountKey = true →
  jose_Verify W jws key = inl payload →
  json_Unmarshal W payload = inl m →
  (∃ c, outcome (validateSimpleHTTP W va identifier input accountKey) = Returned (c, None) ∧
        Status c = StatusValid)
  ↔ m = accepted_payload input.
Proof.
  intros scheme hostName url Hpath Htype Hhost Hreq Hdo Hbody Hparse Hsig Hdigest Hverify Hjson.
  assert (Hurl : (if TestMode va then "http"
                  else match TLS input with
                       | Some b => if b then "https" else "http"
                       | None => "https"
                       end) +:+ "://" +:+
                 (if TestMode va then "localhost:5001" else id_Value identifier) +:+
                 "/.well-known/acme-challenge/" +:+ Path input = url).
  { subst url scheme hostName. by destruct (TestMode va), (TLS input) as [[]|]. }
  assert (Hrun : ∃ challenge, accepted_payload challenge = accepted_payload input ∧
            outcome (validateSimpleHTTP W va identifier input accountKey) =
              outcome (checkPayload W challenge payload)).
  { unfold validateSimpleHTTP.
    destruct (decide (String.length (Path input) = 0%nat)) as [Hlen|_].
    { by destruct (Path input). }
    destruct (decide (id_Type identifier ≠ IdentifierDNS)); [done | ].
    rewrite Hhost. unfold mbind, M_bind. simpl. rewrite Hurl, Hreq.
    unfold fetch. fold hostName. rewrite Hdo. unfold mbind, M_bind. simpl. rewrite Hbody.
    unfold checkJWS. rewrite Hparse, Hsig, Hdigest, Hverify. simpl.
    destruct (decide (1 < 1)%nat); [lia | ].
    destruct (decide (StatusCode response ≠ 200)); eexists; (split; [ | reflexivity]); done. }
  destruct Hrun as (challenge & Hsame & ->).
  rewrite <- Hsame, <- (checkPayload_accepts_iff W challenge payload m Hjson).
  split.
  - intros (c & Hret & _). by rewrite (checkPayload_nil_error _ _ _ _ Hret) in Hret.
  - intros Hret. by eexists.
Qed.

(** X16: the order in which the entries of the decoded payload are
    visited does not matter: for every listing of the map without a
    repeated key, the loop over the listing ends as the loop over the map
    does, in the same flags or in the same early return. *)
Theorem X16_payload_any_order (challenge : Challenge) (m : gmap string JSON)
    (entries : list (string * JSON)) :
  NoDup entries.*1 → list_to_map entries = m →
  payload_loop challenge entries none_Passed =
  payload_loop challenge (map_to_list m) none_Passed.
Proof.
  intros Hnd <-. apply payload_loop_perm; [ | done].
  symmetry. by apply map_to_list_to_map.
Qed.

(** X17: a body that parses as a JWS with no signature, or with more than
    one, is refused whatever its keys and payload: the challenge comes
    back [invalid] with its error field as it was, the key is not compared
    and the signature is not verified. *)
Theorem X17_simpleHTTP_signature_count (W : World) (challenge : Challenge)
    (accountKey : JsonWebKey) (body : string) (jws : JsonWebSignature) :
  jose_ParseSigned W body = inl jws →
  length (Signatures jws) ≠ 1%nat →
  let text := if decide (length (Signatures jws) = 0%nat)
              then "Validation JWS not signed"
              else "Too many signatures on validation JWS" in
  checkJWS W challenge accountKey body =
    ([LogDebug (Text text)],
     Returned (set_Status StatusInvalid challenge, Some (errorString text))).
Proof.
  intros Hparse Hlen. unfold checkJWS. rewrite Hparse.
  destruct (decide (1 < length (Signatures jws))%nat) as [Hgt|Hle].
  - destruct (decide (length (Signatures jws) = 0%nat)); [lia | reflexivity].
  - destruct (Signatures jws) as [|key sigs]; [reflexivity | ].
    exfalso. destruct sigs; simpl in *; [done | lia].
Qed.

(** ** CAA: the record set *)

Lemma file_all (CAAs : list CAA) :
  ∀ acc,
    Issue (fold_left file_CAA CAAs acc) = (Issue acc ++ tagged "issue" CAAs)%list ∧
    Issuewild (fold_left file_CAA CAAs acc) = (Issuewild acc ++ tagged "issuewild" CAAs)%list ∧
    Iodef (fold_left file_CAA CAAs acc) = (Iodef acc ++ tagged "iodef" CAAs)%list ∧
    Unknown (fold_left file_CAA CAAs acc) = (Unknown acc ++ filter unknown_tag CAAs)%list.
Proof.
  unfold tagged.
  induction CAAs as [|r CAAs IH]; intros acc; simpl.
  - by rewrite !app_nil_r.
  - destruct (IH (file_CAA acc r)) as (-> & -> & -> & ->).
    rewrite !filter_cons. unfold file_CAA, unknown_tag.
    destruct (decide (Tag r = "issue")) as [Ht|Ht1]; simpl.
    { rewrite Ht. simpl. repeat (destruct (decide _) as [H|H]; try done);
        rewrite <- ?app_assoc; try done;
        exfalso; apply H; rewrite list_elem_of_In; simpl; tauto. }
    destruct (decide (Tag r = "issuewild")) as [Ht|Ht2]; simpl.
    { rewrite Ht. simpl. repeat (destruct (decide _) as [H|H]; try done);
        rewrite <- ?app_assoc; try done;
        exfalso; apply H; rewrite list_elem_of_In; simpl; tauto. }
    destruct (decide (Tag r = "iodef")) as [Ht|Ht3]; simpl.
    { rewrite Ht. simpl. repeat (destruct (decide _) as [H|H]; try done);
        rewrite <- ?app_assoc; try done;
        exfalso; apply H; rewrite list_elem_of_In; simpl; tauto. }
    destruct (decide (Tag r ∉ ["issue"; "issuewild"; "iodef"])) as [H|H].
    + by rewrite <- app_assoc.
    + exfalso. apply H. rewrite list_elem_of_In. simpl. intuition.
Qed.

Lemma newCAASet_buckets (CAAs : list CAA) :
  Issue (newCAASet CAAs) = tagged "issue" CAAs ∧
  Issuewild (newCAASet CAAs) = tagged "issuewild" CAAs.
Proof.
  unfold newCAASet. by destruct (file_all CAAs empty_CAASet) as (-> & -> & _).
Qed.

(** X18: [newCAASet] sorts the records by tag and keeps their order: the
    [Issue], [Issuewild] and [Iodef] buckets are the records tagged
    [issue], [issuewild] and [iodef], the [Unknown] bucket is every other
    record, and no record is lost or doubled. *)
Theorem X18_newCAASet_partition (CAAs : list CAA) :
  Issue (newCAASet CAAs) = tagged "issue" CAAs ∧
  Issuewild (newCAASet CAAs) = tagged "issuewild" CAAs ∧
  Iodef (newCAASet CAAs) = tagged "iodef" CAAs ∧
  Unknown (newCAASet CAAs) = filter unknown_tag CAAs ∧
  (length (Issue (newCAASet CAAs)) + length (Issuewild (newCAASet CAAs)) +
   length (Iodef (newCAASet CAAs)) + length (Unknown (newCAASet CAAs)) = length CAAs)%nat.
Proof.
  unfold newCAASet. destruct (file_all CAAs empty_CAASet) as (-> & -> & -> & ->). simpl.
  do 4 (split; [reflexivity | ]).
  unfold tagged, unknown_tag.
  induction CAAs as [|r CAAs IH]; [done | ].
  rewrite !filter_cons.
  destruct (decide (Tag r = "issue")) as [Ht|?];
    [rewrite Ht | destruct (decide (Tag r = "issuewild")) as [Ht|?];
       [rewrite Ht | destruct (decide (Tag r = "iodef")) as [Ht|?]; [rewrite Ht | ]]];
    repeat (destruct (decide _) as [H|H]; try done); simpl; try lia;
    exfalso; revert H; rewrite ?list_elem_of_In; simpl; intuition.
Qed.

Lemma criticalUnknown_iff (CAAs : list CAA) :
  criticalUnknown (newCAASet CAAs) = true ↔
  ∃ r, r ∈ CAAs ∧ unknown_tag r ∧ Flag r > 0.
Proof.
  unfold criticalUnknown, newCAASet.
  destruct (file_all CAAs empty_CAASet) as (_ & _ & _ & ->). simpl.
  rewrite existsb_exists. split.
  - intros (r & Hin & Hflag). exists r.
    apply list_elem_of_In, list_elem_of_filter in Hin as [Htag Hin].
    by apply bool_decide_eq_true in Hflag.
  - intros (r & Hin & Htag & Hflag). exists r. split.
    + apply list_elem_of_In, list_elem_of_filter. done.
    + by apply bool_decide_eq_true.
Qed.

(** X19: [criticalUnknown] holds of the record set of a list exactly
    when the list has a record whose tag is none of [issue], [issuewild]
    and [iodef] and whose flag byte is not zero. *)
Theorem X19_criticalUnknown_iff (CAAs : list CAA) :
  criticalUnknown (newCAASet CAAs) = true ↔
  ∃ r, r ∈ CAAs ∧ (Tag r ∉ ["issue"; "issuewild"; "iodef"]) ∧ Flag r > 0.
Proof. apply criticalUnknown_iff. Qed.

(** X20: the scan of a bucket answers [true] exactly when some record
    names the issuer and every record before it has a zero flag: a record
    with a flag that does not name the issuer ends the scan, and a record
    that names the issuer is accepted whatever its own flag. *)
Theorem X20_scan_iff (issuerDomain : string) (checkSet : list CAA) :
  scan issuerDomain checkSet = true ↔
  ∃ before caa after,
    checkSet = (before ++ caa :: after)%list ∧ Value caa = issuerDomain ∧
    Forall (λ r, Value r ≠ issuerDomain ∧ (Flag r ≤ 0)%Z) before.
Proof.
  induction checkSet as [|r checkSet IH]; simpl.
  - split; [done | ]. intros (before & caa & after & Heq & _). by destruct before.
  - destruct (decide (Value r = issuerDomain)) as [Hv|Hv].
    { split; [ | done]. intros _. by exists [], r, checkSet. }
    destruct (decide (Flag r > 0)) as [Hf|Hf].
    + split; [done | ]. intros (before & caa & after & Heq & Hval & Hall).
      destruct before as [|b before]; simpl in Heq; injection Heq as -> ->; [done | ].
      apply Forall_cons in Hall as [[_ Hflag] _]. lia.
    + rewrite IH. split.
      * intros (before & caa & after & -> & Hval & Hall).
        exists (r :: before), caa, after. repeat split; [done | ].
        apply Forall_cons. split; [split; [done | lia] | done].
      * intros (before & caa & after & Heq & Hval & Hall).
        destruct before as [|b before]; simpl in Heq; injection Heq as -> ->; [done | ].
        apply Forall_cons in Hall as [_ Hall]. by exists before, caa, after.
Qed.

(** ** CAA: the decision *)

Lemma TrimRight_dot (s : string) :
  strings.TrimRight (s +:+ ".") "." = strings.TrimRight s ".".
Proof.
  induction s as [|c s IH]; [done | ].
  change (String c s +:+ ".") with (String c (s +:+ ".")). simpl. by rewrite IH.
Qed.

(** X21: when the walk ends on a list of records one of which has an
    unknown tag and a flag that is not zero, [CheckCAARecords] answers
    [(present, valid) = (true, false)] without an error, whatever the
    [issue] and [issuewild] records of the list say. *)
Theorem X21_critical_unknown_refuses (W : World) (va : ValidationAuthorityImpl)
    (identifier : AcmeIdentifier) (t : list Event) (CAAs : list CAA) (r : CAA) :
  getCAASet W va (strings_ToLower W (id_Value identifier)) =
    (t, Returned (Some (newCAASet CAAs), None)) →
  r ∈ CAAs → Tag r ∉ ["issue"; "issuewild"; "iodef"] → Flag r > 0 →
  CheckCAARecords W va identifier = (t, Returned (true, false, None)).
Proof.
  intros Hset Hin Htag Hflag. unfold CheckCAARecords.
  rewrite (bind_returned _ _ _ _ Hset). simpl.
  assert (criticalUnknown (newCAASet CAAs) = true) as ->.
  { apply criticalUnknown_iff. by exists r. }
  simpl. by rewrite app_nil_r.
Qed.

(** X22: when the walk ends on a list of records with an [issue] or an
    [issuewild] record and no critical unknown one, [CheckCAARecords]
    answers [present = true] and scans one bucket only: the [issuewild]
    records if the first label of the lower-cased name is [*], the [issue]
    records otherwise.  So a wildcard name is refused when the list has no
    [issuewild] record, even if an [issue] record names the issuer. *)
Theorem X22_bucket_by_first_label (W : World) (va : ValidationAuthorityImpl)
    (identifier : AcmeIdentifier) (t : list Event) (CAAs : list CAA) :
  getCAASet W va (strings_ToLower W (id_Value identifier)) =
    (t, Returned (Some (newCAASet CAAs), None)) →
  criticalUnknown (newCAASet CAAs) = false →
  tagged "issue" CAAs ≠ [] ∨ tagged "issuewild" CAAs ≠ [] →
  let bucket := if decide (first_label (strings_ToLower W (id_Value identifier)) = "*")
                then "issuewild" else "issue" in
  CheckCAARecords W va identifier =
    (t, Returned (true, scan (IssuerDomain va) (tagged bucket CAAs), None)) ∧
  (tagged bucket CAAs = [] →
   CheckCAARecords W va identifier = (t, Returned (true, false, None))).
Proof.
  intros Hset Hcrit Hsome bucket.
  assert (Hrun : CheckCAARecords W va identifier =
                 (t, Returned (true, scan (IssuerDomain va) (tagged bucket CAAs), None))).
  { unfold CheckCAARecords. rewrite (bind_returned _ _ _ _ Hset). simpl. rewrite Hcrit.
    destruct (newCAASet_buckets CAAs) as (Hissue & Hwild).
    rewrite Hissue, Hwild.
    destruct (decide (0 < length (tagged "issue" CAAs) ∨
                      0 < length (tagged "issuewild" CAAs))%nat) as [_|Hnone].
    2: { exfalso. apply Hnone.
         destruct Hsome as [H|H]; [left | right];
           (destruct (tagged _ CAAs); [done | simpl; lia]). }
    subst bucket. unfold first_label.
    destruct (strings.Cut (strings_ToLower W (id_Value identifier)) ".") as [[before after]|];
      simpl; rewrite app_nil_r; by destruct (decide _). }
  split; [exact Hrun | ]. intros Hempty. by rewrite Hrun, Hempty.
Qed.

(** X23: a dot at the end of the name changes nothing in the walk: the
    same queries are sent and the same record set or error comes back. *)
Theorem X23_trailing_dot (W : World) (va : ValidationAuthorityImpl) (domain : string) :
  getCAASet W va (domain +:+ ".") = getCAASet W va domain.
Proof. unfold getCAASet. by rewrite TrimRight_dot. Qed.

(** X24: for a name that, lower-cased and without its trailing dots, is
    in the public-suffix set, [CheckCAARecords] sends no query and answers
    [(present, valid) = (false, true)]. *)
Theorem X24_public_suffix_unasked (W : World) (va : ValidationAuthorityImpl)
    (identifier : AcmeIdentifier) :
  strings.TrimRight (strings_ToLower W (id_Value identifier)) "." ∈ policy_PublicSuffixList W →
  CheckCAARecords W va identifier = ([], Returned (false, true, None)).
Proof.
  intros Hpsl. unfold CheckCAARecords, getCAASet.
  set (name := strings.TrimRight (strings_ToLower W (id_Value identifier)) ".") in *.
  pose proof (Join_Split name ".") as Hjoin.
  pose proof (Split_nonempty name ".") as Hne.
  destruct (strings.Split name ".") as [|label rest]; [done | ].
  cbn [walk]. rewrite Hjoin.
  destruct (decide (name ∈ policy_PublicSuffixList W)); done.
Qed.

Lemma first_answer_shape (dns : DNSResolver) (qs : list (string * bool)) :
  ((Walk.first_answer dns qs).2 = (None, None) ∨
   (∃ e, (Walk.first_answer dns qs).2 = (None, Some e)) ∨
   (∃ CAAs, CAAs ≠ [] ∧ (Walk.first_answer dns qs).2 = (Some (newCAASet CAAs), None))) ∧
  Forall (λ ev, ∃ name alias, ev = DNSLookupCAA name alias) (Walk.first_answer dns qs).1 ∧
  (length (Walk.first_answer dns qs).1 ≤ length qs)%nat.
Proof.
  induction qs as [|[name alias] qs IH]; simpl.
  - split; [by left | ]. split; [constructor | lia].
  - destruct (LookupCAA dns name alias) as [CAAs [e|]].
    + split; [right; left; by eexists | ]. split; [ | simpl; lia].
      repeat constructor. by eexists _, _.
    + destruct (decide (0 < length CAAs)%nat) as [Hlen|Hlen].
      * split; [right; right; exists CAAs; split; [intros ->; simpl in Hlen; lia | done] | ].
        split; [ | simpl; lia]. repeat constructor. by eexists _, _.
      * destruct IH as (Hres & Hall & Hle). simpl.
        split; [exact Hres | ]. split; [ | lia].
        constructor; [by eexists _, _ | exact Hall].
Qed.

Lemma walk_queries_bound (psl : gset string) (labels : list string) :
  (length (Walk.queries (Walk.before_public_suffix psl (Walk.candidates labels))) ≤
   2 * length labels)%nat.
Proof.
  induction labels as [|label rest IH]; [done | ].
  cbn [Walk.candidates Walk.before_public_suffix].
  destruct (decide (strings.Join (label :: rest) "." ∈ psl)); [simpl; lia | ].
  unfold Walk.queries in *. rewrite bind_cons. simpl in *. lia.
Qed.

(** X25: [getCAASet] always returns, with nothing, with an error and no
    set, or with the set of a list of records that is not empty and no
    error; all it does is ask for CAA records, at most twice per label of
    the name. *)
Theorem X25_getCAASet_results (W : World) (va : ValidationAuthorityImpl) (domain : string) :
  ∃ result, outcome (getCAASet W va domain) = Returned result ∧
    (result = (None, None) ∨ (∃ e, result = (None, Some e)) ∨
     (∃ CAAs, CAAs ≠ [] ∧ result = (Some (newCAASet CAAs), None))) ∧
    Forall (λ ev, ∃ name alias, ev = DNSLookupCAA name alias)
      (trace (getCAASet W va domain)) ∧
    (length (trace (getCAASet W va domain)) ≤
     2 * length (strings.Split (strings.TrimRight domain ".") "."))%nat.
Proof.
  rewrite getCAASet_walk_of. unfold Walk.walk_of, trace, outcome. simpl.
  match goal with |- context [Walk.first_answer ?d ?q] =>
    destruct (first_answer_shape d q) as (Hres & Hall & Hle)
  end.
  eexists. split; [reflexivity | ]. split; [exact Hres | ]. split; [exact Hall | ].
  etrans; [exact Hle | apply walk_queries_bound].
Qed.

(** X26: [CheckCAARecords] always returns and does nothing but the
    queries of the walk; when a query fails it hands the error on with
    [present] and [valid] both false, and it answers [present = true]
    only without an error. *)
Theorem X26_CheckCAARecords_returns (W : World) (va : ValidationAuthorityImpl)
    (identifier : AcmeIdentifier) :
  ∃ present valid err,
    outcome (CheckCAARecords W va identifier) = Returned (present, valid, err) ∧
    trace (CheckCAARecords W va identifier) =
      trace (getCAASet W va (strings_ToLower W (id_Value identifier))) ∧
    (∀ e, (Walk.walk_of W va (strings_ToLower W (id_Value identifier))).2.2 = Some e →
          present = false ∧ valid = false ∧ err = Some e) ∧
    (present = true → err = None).
Proof.
  unfold CheckCAARecords. rewrite getCAASet_walk_of.
  destruct (Walk.walk_of W va (strings_ToLower W (id_Value identifier))) as [t [set err]].
  unfold mbind, M_bind, trace, outcome. simpl.
  destruct err as [e|].
  { eexists _, _, _. split; [reflexivity | ]. simpl. rewrite app_nil_r.
    split; [done | ]. split; [by intros ? [= <-] | done]. }
  destruct set as [caaSet|].
  2: { eexists _, _, _. split; [reflexivity | ]. simpl. rewrite app_nil_r. by repeat split. }
  destruct (criticalUnknown caaSet).
  { eexists _, _, _. split; [reflexivity | ]. simpl. rewrite app_nil_r. by repeat split. }
  destruct (decide (0 < length (Issue caaSet) ∨ 0 < length (Issuewild caaSet))%nat).
  2: { eexists _, _, _. split; [reflexivity | ]. simpl. rewrite app_nil_r. by repeat split. }
  destruct (strings.Cut (strings_ToLower W (id_Value identifier)) ".") as [[before after]|];
    (eexists _, _, _; split; [reflexivity | ]; simpl; rewrite app_nil_r; by repeat split).
Qed.

(** ** The further statements with hypotheses, at the scenarios *)

Lemma first_label_SplitN (domain : string) :
  head (strings.SplitN domain "." 2) = Some (first_label domain).
Proof.
  unfold first_label. simpl. by destruct (strings.Cut domain ".") as [[before after]|].
Qed.

(** An identifier of type [ip]. *)
Lemma X3_identifier_not_dns_witness :
  id_Type Scenario.an_address ≠ "dns" ∧
  rejected_unsent (validateSimpleHTTP Scenario.world_S1 Scenario.va_quiet Scenario.an_address
                     (Scenario.simpleHTTP None) Scenario.accountKey) ∧
  rejected_unsent (validateDvsni Scenario.world_S1 Scenario.va_quiet Scenario.an_address
                     Scenario.dvsni_challenge Scenario.accountKey) ∧
  rejected_unsent (validateDNS Scenario.world_S1 Scenario.va_quiet Scenario.an_address
                     Scenario.dns_challenge).
Proof.
  assert (Htype : id_Type Scenario.an_address ≠ "dns") by discriminate.
  split; [exact Htype | ]. split; [ | split].
  - apply (X3_identifier_not_dns Scenario.world_S1 Scenario.va_quiet Scenario.an_address
             (Scenario.simpleHTTP None) Scenario.accountKey Htype).
  - apply (X3_identifier_not_dns Scenario.world_S1 Scenario.va_quiet Scenario.an_address
             Scenario.dvsni_challenge Scenario.accountKey Htype).
  - apply (X3_identifier_not_dns Scenario.world_S1 Scenario.va_quiet Scenario.an_address
             Scenario.dns_challenge Scenario.accountKey Htype).
Defined.

Lemma X5_simpleHTTP_empty_path_witness :
  Path Scenario.pathless = "" ∧
  rejected_unsent (validateSimpleHTTP Scenario.world_S1 Scenario.va_quiet Scenario.d_example
                     Scenario.pathless Scenario.accountKey).
Proof.
  split; [reflexivity | ].
  apply (X5_simpleHTTP_empty_path Scenario.world_S1 Scenario.va_quiet Scenario.d_example
           Scenario.pathless Scenario.accountKey eq_refl).
Defined.

Lemma X6_dvsni_undecodable_witness :
  (id_Type Scenario.d_example = "dns" ∧
   core_B64dec (Scenario.without_base64 Scenario.world_S1) (R Scenario.dvsni_challenge) =
     inr (errorString "illegal base64 data at input byte 0")) ∧
  network_events (trace (validateDvsni (Scenario.without_base64 Scenario.world_S1)
                           Scenario.va_quiet Scenario.d_example Scenario.dvsni_challenge
                           Scenario.accountKey)) = [] ∧
  ∃ c, outcome (validateDvsni (Scenario.without_base64 Scenario.world_S1)
                  Scenario.va_quiet Scenario.d_example Scenario.dvsni_challenge
                  Scenario.accountKey) =
         Returned (c, Some (errorString "illegal base64 data at input byte 0")) ∧
       Status c = StatusInvalid ∧ problem_of c = Some MalformedProblem.
Proof.
  split; [split; reflexivity | ].
  apply (X6_dvsni_undecodable (Scenario.without_base64 Scenario.world_S1) Scenario.va_quiet
           Scenario.d_example Scenario.dvsni_challenge Scenario.accountKey
           (errorString "illegal base64 data at input byte 0") eq_refl).
  left. reflexivity.
Defined.

(** The peer of [conn_S4] presents the derived name. *)
Lemma X7_dvsni_valid_iff_witness :
  (tls_DialWithDialer Scenario.world_S4 (hostPort_of Scenario.va_quiet Scenario.d_example)
     (Nonce Scenario.dvsni_challenge +:+ ".acme.invalid") = inl Scenario.conn_S4 ∧
   zName_of Scenario.world_S4 (bytes_of "cg") (bytes_of "cw") = Scenario.dvsni_zName) ∧
  ∃ c e, outcome (validateDvsni Scenario.world_S4 Scenario.va_quiet Scenario.d_example
                    Scenario.dvsni_challenge Scenario.accountKey) = Returned (c, e) ∧
         Status c = StatusValid.
Proof.
  split; [split; reflexivity | ].
  destruct (X7_dvsni_valid_iff Scenario.world_S4 Scenario.va_quiet Scenario.d_example
              Scenario.dvsni_challenge Scenario.accountKey (bytes_of "cg") (bytes_of "cw")
              Scenario.conn_S4 eq_refl eq_refl eq_refl eq_refl eq_refl)
    as (c & e & Hret & Hiff).
  exists c, e. split; [exact Hret | ]. apply Hiff.
  eexists _, _. split; [reflexivity | ]. apply list_elem_of_In. simpl. tauto.
Defined.

(** Scenario S1: one lookup, one request over https. *)
Lemma X14_simpleHTTP_request_witness :
  (Path (Scenario.simpleHTTP (Some true)) ≠ "" ∧ id_Type Scenario.d_example = "dns" ∧
   LookupHost Scenario.no_records "d.example" = None) ∧
  network_events (trace (validateSimpleHTTP Scenario.world_S1 Scenario.va_quiet
                           Scenario.d_example (Scenario.simpleHTTP (Some true))
                           Scenario.accountKey)) =
    [DNSLookupHost "d.example";
     HTTPDo "https://d.example/.well-known/acme-challenge/abc" "d.example"].
Proof.
  assert (Hpath : Path (Scenario.simpleHTTP (Some true)) ≠ "") by discriminate.
  split; [split; [exact Hpath | split; reflexivity] | ].
  apply (X14_simpleHTTP_request Scenario.world_S1 Scenario.va_quiet Scenario.d_example
           (Scenario.simpleHTTP (Some true)) Scenario.accountKey Hpath eq_refl eq_refl).
Defined.

(** Scenario S1: the payload is the accepted one. *)
Lemma X15_simpleHTTP_accepts_iff_witness :
  Scenario.payload_S1 = accepted_payload (Scenario.simpleHTTP (Some true)) ∧
  ∃ c, outcome (validateSimpleHTTP Scenario.world_S1 Scenario.va_quiet Scenario.d_example
                  (Scenario.simpleHTTP (Some true)) Scenario.accountKey) = Returned (c, None) ∧
       Status c = StatusValid.
Proof.
  assert (Hpath : Path (Scenario.simpleHTTP (Some true)) ≠ "") by discriminate.
  assert (Hpayload : Scenario.payload_S1 = accepted_payload (Scenario.simpleHTTP (Some true)))
    by reflexivity.
  split; [exact Hpayload | ].
  apply (X15_simpleHTTP_accepts_iff Scenario.world_S1 Scenario.va_quiet Scenario.d_example
           (Scenario.simpleHTTP (Some true)) Scenario.accountKey
           {| StatusCode := 200; Body := inl Scenario.signed_body |} Scenario.signed_body
           {| Signatures := [Some Scenario.accountKey]; jws_raw := Scenario.signed_body |}
           (Some Scenario.accountKey) (bytes_of Scenario.signed_body) Scenario.payload_S1
           Hpath eq_refl eq_refl eq_refl eq_refl eq_refl eq_refl eq_refl eq_refl eq_refl eq_refl).
  exact Hpayload.
Defined.

(** The payload of scenario S1, listed from [tls] to [type]. *)
Lemma X16_payload_any_order_witness :
  payload_loop (Scenario.simpleHTTP (Some true))
    [("tls", JBool true); ("path", JString "abc"); ("token", JString "tok");
     ("type", JString "simpleHttp")] none_Passed =
  payload_loop (Scenario.simpleHTTP (Some true)) (map_to_list Scenario.payload_S1) none_Passed.
Proof.
  apply (X16_payload_any_order (Scenario.simpleHTTP (Some true)) Scenario.payload_S1).
  - apply (bool_decide_unpack _). vm_compute. exact I.
  - vm_compute. reflexivity.
Defined.

(** A JWS without a signature, and one with two. *)
Lemma X17_simpleHTTP_signature_count_witness :
  checkJWS (Scenario.with_signatures Scenario.world_S1 []) (Scenario.simpleHTTP (Some true))
      Scenario.accountKey Scenario.signed_body =
    ([LogDebug (Text "Validation JWS not signed")],
     Returned (set_Status StatusInvalid (Scenario.simpleHTTP (Some true)),
               Some (errorString "Validation JWS not signed"))) ∧
  checkJWS (Scenario.with_signatures Scenario.world_S1
              [Some Scenario.accountKey; Some Scenario.accountKey])
      (Scenario.simpleHTTP (Some true)) Scenario.accountKey Scenario.signed_body =
    ([LogDebug (Text "Too many signatures on validation JWS")],
     Returned (set_Status StatusInvalid (Scenario.simpleHTTP (Some true)),
               Some (errorString "Too many signatures on validation JWS"))).
Proof.
  split.
  - apply (X17_simpleHTTP_signature_count (Scenario.with_signatures Scenario.world_S1 [])
             (Scenario.simpleHTTP (Some true)) Scenario.accountKey Scenario.signed_body
             {| Signatures := []; jws_raw := Scenario.signed_body |} eq_refl).
    simpl. lia.
  - apply (X17_simpleHTTP_signature_count
             (Scenario.with_signatures Scenario.world_S1
                [Some Scenario.accountKey; Some Scenario.accountKey])
             (Scenario.simpleHTTP (Some true)) Scenario.accountKey Scenario.signed_body
             {| Signatures := [Some Scenario.accountKey; Some Scenario.accountKey];
                jws_raw := Scenario.signed_body |} eq_refl).
    simpl. lia.
Defined.

(** [d.example] has [issue "my-ca.example"] and a critical record with
    the tag [tbs]. *)
Lemma X21_critical_unknown_refuses_witness :
  (getCAASet Scenario.world_S1 (Scenario.va Scenario.dns_critical)
     (strings_ToLower Scenario.world_S1 (id_Value Scenario.d_example)) =
     ([DNSLookupCAA "d.example" false],
      Returned (Some (newCAASet [Scenario.issue_my_ca; Scenario.critical_unknown]), None)) ∧
   Flag Scenario.critical_unknown > 0) ∧
  CheckCAARecords Scenario.world_S1 (Scenario.va Scenario.dns_critical) Scenario.d_example =
    ([DNSLookupCAA "d.example" false], Returned (true, false, None)).
Proof.
  assert (Hset : getCAASet Scenario.world_S1 (Scenario.va Scenario.dns_critical)
                   (strings_ToLower Scenario.world_S1 (id_Value Scenario.d_example)) =
                 ([DNSLookupCAA "d.example" false],
                  Returned (Some (newCAASet [Scenario.issue_my_ca; Scenario.critical_unknown]),
                            None)))
    by (vm_compute; reflexivity).
  assert (Hflag : Flag Scenario.critical_unknown > 0) by reflexivity.
  split; [split; [exact Hset | exact Hflag] | ].
  apply (X21_critical_unknown_refuses _ _ _ _ _ Scenario.critical_unknown Hset);
    [ | | exact Hflag].
  - apply list_elem_of_In. simpl. tauto.
  - rewrite list_elem_of_In. simpl. intros [H|[H|[H|[]]]]; discriminate.
Defined.

(** [*.d.example] where [d.example] has [issue "my-ca.example"] and no
    [issuewild] record. *)
Lemma X22_bucket_by_first_label_witness :
  (getCAASet Scenario.world_S1 Scenario.va_S7
     (strings_ToLower Scenario.world_S1 (id_Value Scenario.wildcard_d_example)) =
     ([DNSLookupCAA "*.d.example" false; DNSLookupCAA "*.d.example" true;
       DNSLookupCAA "d.example" false],
      Returned (Some (newCAASet [Scenario.issue_my_ca]), None)) ∧
   first_label (strings_ToLower Scenario.world_S1 (id_Value Scenario.wildcard_d_example)) = "*" ∧
   tagged "issuewild" [Scenario.issue_my_ca] = []) ∧
  CheckCAARecords Scenario.world_S1 Scenario.va_S7 Scenario.wildcard_d_example =
    ([DNSLookupCAA "*.d.example" false; DNSLookupCAA "*.d.example" true;
      DNSLookupCAA "d.example" false],
     Returned (true, false, None)).
Proof.
  assert (Hset : getCAASet Scenario.world_S1 Scenario.va_S7
                   (strings_ToLower Scenario.world_S1 (id_Value Scenario.wildcard_d_example)) =
                 ([DNSLookupCAA "*.d.example" false; DNSLookupCAA "*.d.example" true;
                   DNSLookupCAA "d.example" false],
                  Returned (Some (newCAASet [Scenario.issue_my_ca]), None)))
    by (vm_compute; reflexivity).
  split; [split; [exact Hset | split; reflexivity] | ].
  destruct (X22_bucket_by_first_label _ _ _ _ _ Hset) as [_ Hrefused].
  - reflexivity.
  - left. discriminate.
  - apply Hrefused. reflexivity.
Defined.

(** [COM.] is the public suffix [com]. *)
Lemma X24_public_suffix_unasked_witness :
  (strings.TrimRight (strings_ToLower Scenario.world_S1 (id_Value Scenario.com_dot)) "." ∈
     policy_PublicSuffixList Scenario.world_S1) ∧
  CheckCAARecords Scenario.world_S1 Scenario.va_S7 Scenario.com_dot =
    ([], Returned (false, true, None)).
Proof.
  assert (Hpsl : strings.TrimRight
                   (strings_ToLower Scenario.world_S1 (id_Value Scenario.com_dot)) "." ∈
                 policy_PublicSuffixList Scenario.world_S1)
    by (vm_compute; reflexivity).
  split; [exact Hpsl | ].
  apply (X24_public_suffix_unasked _ _ _ Hpsl).
Defined.
